(** * CompressorInstance: the realtime dynamic-range effect instance

    A shallow embedding of [src/effects/CompressorInstance.cpp] and the
    properties its design document states about it.

    Conventions of the embedding.

    - [float] and [double] values (audio samples, decibel levels, durations,
      sample rates) are exact rationals [Q]: every operation is the exact
      one, so rounding, NaN and overflow to infinity are outside the model.
      The one infinite value the code manufactures itself, the "no gain
      increase" sentinel of [GetMaxDbIncrease], is a constructor of [dB].
    - [size_t] values are [N]; the sample counter is a 64-bit signed integer
      held in [Z] with its wrap-around written out.
    - Dereferencing a failed cast ends the program: operations return an
      [outcome], whose second constructor is that fatal end.
    - [CompressorProcessor], the settings variants, [MathApprox.h] and the
      growth policy of [std::vector] lie outside that source file; they are
      interfaces (type classes) whose operations the code calls, and every
      property holds for all their implementations. *)

From Stdlib Require Import ZArith NArith QArith Qabs Qround Lia Lqa PrimFloat.
From stdpp Require Import base option list gmap.

Open Scope Q_scope.

(** ** Sample arithmetic *)

(** [a < b] on [float]. *)
Definition Qlt_bool (a b : Q) : bool := negb (Qle_bool b a).

(** [std::max(a, b)]: [(a < b) ? b : a]. *)
Definition std_max (a b : Q) : Q := if Qlt_bool a b then b else a.

(** The literal [1e-6]: magnitudes below it are treated as silence. *)
Definition silenceFloor : Q := 1 # 1000000.

(** Conversion of a floating-point value to an integer sample count:
    the fractional part is discarded (rounding towards zero). *)
Definition truncate (x : Q) : Z := Z.quot (Qnum x) (Zpos (Qden x)).

(** A level in decibels as [GetMaxDbIncrease] returns it: either
    [-std::numeric_limits<float>::infinity()] or a finite value. *)
Inductive dB : Type :=
| NegInfinity
| Finite (q : Q).

(** [d <= bound] for a returned level; minus infinity is below everything. *)
Definition dB_le (d : dB) (bound : Q) : Prop :=
  match d with
  | NegInfinity => True
  | Finite q => q <= bound
  end.

(** ** MathApprox.h *)

(** Modelled from the spec: the two names [GetMaxDbIncrease] takes from
    [MathApprox.h], which is not among the sources, the factor from base-2
    logarithms to decibels and the approximate base-2 logarithm. The spec
    says only that the result is a gain increase in dB; what a property needs
    beyond that, it states. *)
Class MathApprox : Type := {
  log2ToDb : Q;
  FastLog2 : Q -> Q
}.

(** ** GetMaxDbIncrease *)

(** One iteration of the loop of [GetMaxDbIncrease], at index [i], with the
    running value of [leastRatio]. The buffers hold at least [blockLen]
    samples (the caller's obligation), so [nth] never uses its default. *)
Definition GetMaxDbIncrease_step (inb outb : list Q) (leastRatio : Q) (i : nat) : Q :=
  let absIn := Qabs (nth i inb 0) in
  if Qlt_bool absIn silenceFloor then leastRatio
  else std_max (Qabs (nth i outb 0) / absIn) leastRatio.

(** The value of [leastRatio] when the loop leaves. *)
Definition GetMaxDbIncrease_loop (inb outb : list Q) (blockLen : nat) : Q :=
  fold_left (GetMaxDbIncrease_step inb outb) (seq 0 blockLen) 0.

Definition GetMaxDbIncrease `{MathApprox} (inb outb : list Q) (blockLen : nat) : dB :=
  let leastRatio := GetMaxDbIncrease_loop inb outb blockLen in
  if Qeq_bool leastRatio 0 then NegInfinity
  else Finite (log2ToDb * FastLog2 leastRatio).

(** ** Failure *)

(** The result of an operation that may dereference a failed cast. *)
Inductive outcome (A : Type) : Type :=
| Returns (a : A)
| ContractViolation.

Arguments Returns {A} a.
Arguments ContractViolation {A}.

#[global] Instance outcome_ret : MRet outcome := fun A a => Returns a.

#[global] Instance outcome_bind : MBind outcome := fun A B f m =>
  match m with
  | Returns a => f a
  | ContractViolation => ContractViolation
  end.

(** ** Settings *)

(** Modelled from the spec: [DynamicRangeProcessorSettings], declared in a
    header that is not among the sources. The spec lists thresholds, ratio,
    knee, attack and release times and the lookahead duration; the code reads
    [inCompressionThreshDb], [outCompressionThreshDb] and [lookaheadMs]. *)
Record DynamicRangeProcessorSettings : Type := {
  inCompressionThreshDb : Q;
  outCompressionThreshDb : Q;
  kneeWidthDb : Q;
  compressionRatio : Q;
  lookaheadMs : Q;
  attackMs : Q;
  releaseMs : Q
}.

(** The two settings variants and their converting constructors to
    [DynamicRangeProcessorSettings]; declared outside the sources. *)
Class SettingsVariants : Type := {
  CompressorSettings : Type;
  LimiterSettings : Type;
  fromCompressorSettings : CompressorSettings -> DynamicRangeProcessorSettings;
  fromLimiterSettings : LimiterSettings -> DynamicRangeProcessorSettings
}.

(** [EffectSettings] is a type-erased box: it holds a value of one of the two
    variants, or something else (another type, or nothing). *)
Inductive EffectSettings `{SettingsVariants} : Type :=
| HoldsCompressorSettings (s : CompressorSettings)
| HoldsLimiterSettings (s : LimiterSettings)
| HoldsOther.

(** [settings.cast<CompressorSettings>()]: the held value, or a null pointer. *)
Definition cast_CompressorSettings `{SettingsVariants} (settings : EffectSettings) : option CompressorSettings :=
  match settings with
  | HoldsCompressorSettings s => Some s
  | _ => None
  end.

(** [settings.cast<LimiterSettings>()]. *)
Definition cast_LimiterSettings `{SettingsVariants} (settings : EffectSettings) : option LimiterSettings :=
  match settings with
  | HoldsLimiterSettings s => Some s
  | _ => None
  end.

(** The second [return] dereferences the limiter cast without a test. *)
Definition GetDynamicRangeProcessorSettings `{SettingsVariants} (settings : EffectSettings) : outcome DynamicRangeProcessorSettings :=
  match cast_CompressorSettings settings with
  | Some pSettings => Returns (fromCompressorSettings pSettings)
  | None =>
      match cast_LimiterSettings settings with
      | Some pSettings => Returns (fromLimiterSettings pSettings)
      | None => ContractViolation
      end
  end.

(** ** The processor core *)

(** Audio blocks: one list of samples per channel. *)
Definition AudioBlock : Type := list (list Q).

(** Modelled from the spec: the statistics of the last processed block, the
    peak input level and the attenuation applied to it, both in dB. *)
Record FrameStats : Type := {
  maxInputSampleDb : Q;
  dbAttenuationOfMaxInputSample : Q
}.

(** [CompressorProcessor], whose implementation is not among the sources: the
    state of one core and the member functions the instance calls.
    [Process] returns the core after the block and the output block. *)
Class CompressorProcessorClass : Type := {
  CompressorProcessor : Type;
  make_CompressorProcessor : CompressorProcessor;
  ApplySettingsIfNeeded : DynamicRangeProcessorSettings -> CompressorProcessor -> CompressorProcessor;
  Init : Q -> Z -> N -> CompressorProcessor -> CompressorProcessor;
  Reinit : CompressorProcessor -> CompressorProcessor;
  Process : AudioBlock -> AudioBlock -> N -> CompressorProcessor -> CompressorProcessor * AudioBlock;
  GetLastFrameStats : CompressorProcessor -> FrameStats;
  GetSettings : CompressorProcessor -> DynamicRangeProcessorSettings;
  EvaluateTransferFunction : CompressorProcessor -> Q -> Q
}.

(** ** Telemetry *)

(** Addresses of the [DynamicRangeProcessorOutputs] objects the host owns. *)
Definition addr : Type := nat.

(** Modelled from the spec: one element of [DynamicRangeProcessorOutputs::packets];
    the code assigns these three fields. *)
Record StatisticsPacket : Type := {
  indexOfFirstSample : Z;
  targetCompressionDb : Q;
  actualCompressionDb : Q
}.

(** An [EffectOutputs*] as the host passes it: null, an object of the
    dynamic-range class, or an object of another class. *)
Inductive EffectOutputs_ptr : Type :=
| NullOutputs
| DynamicRangeOutputs (p : addr)
| ForeignOutputs (p : addr).

(** [dynamic_cast<DynamicRangeProcessorOutputs*>(pOutputs)]. *)
Definition dynamic_cast_DynamicRangeProcessorOutputs (pOutputs : EffectOutputs_ptr) : option addr :=
  match pOutputs with
  | DynamicRangeOutputs p => Some p
  | _ => None
  end.

(** What the two publishers of the instance broadcast. *)
Inductive Notification : Type :=
| InitializeProcessingSettings (sampleRate : option Q)
| RealtimeResumed.

(** ** The instance *)

(** Modelled from the spec: the type of the sample counter, a member
    declared in the class header, which is not among the sources. The spec
    makes it an integer sample position; it is taken as the 64-bit signed
    integer that sample positions are in this code base, and [+=] on it wraps
    around. *)
Definition wrap_int64 (z : Z) : Z := ((z + 2 ^ 63) mod 2 ^ 64 - 2 ^ 63)%Z.

(** The growth policy of [std::vector]: the capacity chosen when an element is
    appended to a full vector of the given capacity. *)
Class VectorGrowth : Type := {
  grow : nat -> nat
}.

(** The members of [CompressorInstance]. The realtime contexts in [mSlaves]
    are instances themselves; [mSlaves_capacity] is the capacity of that
    vector and [mBlockSize] the block size of the
    [EffectInstanceWithBlockSize] base. *)
#[warnings="-register-all"] Inductive CompressorInstance `{CompressorProcessorClass} : Type := Build_CompressorInstance {
  mCompressor : CompressorProcessor;
  mSlaves : list CompressorInstance;
  mSlaves_capacity : nat;
  mSampleCounter : Z;
  mSampleRate : option Q;
  mpOutputs : option addr;
  mBlockSize : N
}.

(** The state the member functions act on: the instance, the telemetry
    objects of the host (by address; an address nobody wrote to holds no
    packets) and what has been published so far. *)
Record World `{CompressorProcessorClass} : Type := {
  this : CompressorInstance;
  outputs : gmap addr (list StatisticsPacket);
  published : list Notification
}.

(** Modelled from the spec: the default member initialisers of the class
    header, which is not among the sources. The counter of a fresh context is
    zero (its first packet has index 0) and no telemetry object is attached.
    With them, [CompressorInstance(const PerTrackEffect&)]: a fresh core, and
    every other member at its default. *)
Definition construct `{CompressorProcessorClass} : CompressorInstance :=
  {| mCompressor := make_CompressorProcessor;
     mSlaves := [];
     mSlaves_capacity := 0;
     mSampleCounter := 0;
     mSampleRate := None;
     mpOutputs := None;
     mBlockSize := 0 |}.

(** [CompressorInstance(CompressorInstance&&)]: the initialiser list moves
    [mCompressor] and [mSlaves]; the members it does not name are initialised
    as in [construct]. *)
Definition move_construct `{CompressorProcessorClass} (other : CompressorInstance) : CompressorInstance :=
  {| mCompressor := mCompressor other;
     mSlaves := mSlaves other;
     mSlaves_capacity := mSlaves_capacity other;
     mSampleCounter := mSampleCounter construct;
     mSampleRate := mSampleRate construct;
     mpOutputs := mpOutputs construct;
     mBlockSize := mBlockSize construct |}.

(** [v.emplace_back(...)] on a vector of instances with capacity [cap]:
    with room left the element is built in place; a full vector is
    reallocated and its elements are move-constructed into the new storage
    (the class has no copy constructor). *)
Definition emplace_back `{CompressorProcessorClass} `{VectorGrowth}
    (v : list CompressorInstance) (cap : nat) (x : CompressorInstance) : list CompressorInstance * nat :=
  if bool_decide (length v < cap)%nat then (v ++ [x], cap)
  else (map move_construct v ++ [x], grow cap).

Definition GetSampleRate `{CompressorProcessorClass} (w : World) : option Q :=
  mSampleRate (this w).

Definition GetAudioOutCount : Z := 2.

Definition GetAudioInCount : Z := 2.

(** [SetBlockSize] and [GetBlockSize] of the base class. *)
Definition SetBlockSize `{CompressorProcessorClass} (n : N) (i : CompressorInstance) : CompressorInstance :=
  {| mCompressor := mCompressor i; mSlaves := mSlaves i;
     mSlaves_capacity := mSlaves_capacity i; mSampleCounter := mSampleCounter i;
     mSampleRate := mSampleRate i; mpOutputs := mpOutputs i; mBlockSize := n |}.

Definition GetBlockSize `{CompressorProcessorClass} (i : CompressorInstance) : N := mBlockSize i.

(** [InstanceInit], acting on [instance]; [blockSize] is [GetBlockSize()] of
    the instance the member function is called on. *)
Definition InstanceInit `{SettingsVariants} `{CompressorProcessorClass}
    (blockSize : N) (settings : EffectSettings) (pOutputs : option addr)
    (instance : CompressorInstance) (numChannels : Z) (sampleRate : Q) : outcome CompressorInstance :=
  d ← GetDynamicRangeProcessorSettings settings;
  mret {| mCompressor := Init sampleRate numChannels blockSize (ApplySettingsIfNeeded d (mCompressor instance));
          mSlaves := mSlaves instance;
          mSlaves_capacity := mSlaves_capacity instance;
          mSampleCounter := mSampleCounter instance;
          mSampleRate := mSampleRate instance;
          mpOutputs := pOutputs;
          mBlockSize := mBlockSize instance |}.

(** [InstanceProcess]: the return value, the core after the block and the
    output block. *)
Definition InstanceProcess `{SettingsVariants} `{CompressorProcessorClass}
    (settings : EffectSettings) (instance : CompressorProcessor)
    (inBlock outBlock : AudioBlock) (blockLen : N) : outcome (N * CompressorProcessor * AudioBlock) :=
  d ← GetDynamicRangeProcessorSettings settings;
  let instance := ApplySettingsIfNeeded d instance in
  let '(instance, outBlock) := Process inBlock outBlock blockLen instance in
  mret (blockLen, instance, outBlock).

(** The instance with [mSlaves] replaced. *)
Definition with_mSlaves `{CompressorProcessorClass}
    (slaves : list CompressorInstance) (cap : nat) (i : CompressorInstance) : CompressorInstance :=
  {| mCompressor := mCompressor i; mSlaves := slaves; mSlaves_capacity := cap;
     mSampleCounter := mSampleCounter i; mSampleRate := mSampleRate i;
     mpOutputs := mpOutputs i; mBlockSize := mBlockSize i |}.

(** [slave.mSampleCounter += n] together with the new state of the core. *)
Definition advance `{CompressorProcessorClass}
    (compressor : CompressorProcessor) (n : N) (slave : CompressorInstance) : CompressorInstance :=
  {| mCompressor := compressor; mSlaves := mSlaves slave;
     mSlaves_capacity := mSlaves_capacity slave;
     mSampleCounter := wrap_int64 (mSampleCounter slave + Z.of_N n);
     mSampleRate := mSampleRate slave; mpOutputs := mpOutputs slave;
     mBlockSize := mBlockSize slave |}.

(** [packets.emplace_back()] on the telemetry object at [p], followed by the
    three assignments to the new packet. *)
Definition emit (p : addr) (newPacket : StatisticsPacket)
    (outs : gmap addr (list StatisticsPacket)) : gmap addr (list StatisticsPacket) :=
  <[p := outs !!! p ++ [newPacket]]> outs.

Definition ProcessInitialize `{SettingsVariants} `{CompressorProcessorClass}
    (settings : EffectSettings) (sampleRate : Q) (chanMap : list N)
    (w : World) : outcome (bool * World) :=
  let i := this w in
  let i := {| mCompressor := mCompressor i; mSlaves := mSlaves i;
              mSlaves_capacity := mSlaves_capacity i; mSampleCounter := mSampleCounter i;
              mSampleRate := Some sampleRate; mpOutputs := mpOutputs i;
              mBlockSize := mBlockSize i |} in
  i ← InstanceInit (GetBlockSize i) settings None i GetAudioInCount sampleRate;
  mret (true, {| this := i; outputs := outputs w; published := published w |}).

Definition ProcessFinalize `{CompressorProcessorClass} (w : World) : bool * World :=
  let i := this w in
  (true, {| this := {| mCompressor := mCompressor i; mSlaves := mSlaves i;
                       mSlaves_capacity := mSlaves_capacity i;
                       mSampleCounter := mSampleCounter i; mSampleRate := None;
                       mpOutputs := mpOutputs i; mBlockSize := mBlockSize i |};
            outputs := outputs w; published := published w |}).

Definition ProcessBlock `{SettingsVariants} `{CompressorProcessorClass}
    (settings : EffectSettings) (inBlock outBlock : AudioBlock) (blockLen : N)
    (w : World) : outcome (N * AudioBlock * World) :=
  let i := this w in
  '(n, compressor, outBlock) ← InstanceProcess settings (mCompressor i) inBlock outBlock blockLen;
  mret (n, outBlock,
        {| this := {| mCompressor := compressor; mSlaves := mSlaves i;
                      mSlaves_capacity := mSlaves_capacity i;
                      mSampleCounter := mSampleCounter i; mSampleRate := mSampleRate i;
                      mpOutputs := mpOutputs i; mBlockSize := mBlockSize i |};
           outputs := outputs w; published := published w |}).

(** [mSlaves.clear()] keeps the capacity of the vector. *)
Definition RealtimeInitialize `{SettingsVariants} `{CompressorProcessorClass}
    (settings : EffectSettings) (sampleRate : Q) (w : World) : bool * World :=
  let i := SetBlockSize 512 (this w) in
  (true, {| this := {| mCompressor := mCompressor i; mSlaves := [];
                       mSlaves_capacity := mSlaves_capacity i;
                       mSampleCounter := 0; mSampleRate := Some sampleRate;
                       mpOutputs := mpOutputs i; mBlockSize := mBlockSize i |};
            outputs := outputs w;
            published := published w ++ [InitializeProcessingSettings (Some sampleRate)] |}).

Definition RealtimeResume `{CompressorProcessorClass} (w : World) : bool * World :=
  let i := this w in
  let reinit slave :=
    {| mCompressor := Reinit (mCompressor slave); mSlaves := mSlaves slave;
       mSlaves_capacity := mSlaves_capacity slave;
       mSampleCounter := mSampleCounter slave; mSampleRate := mSampleRate slave;
       mpOutputs := mpOutputs slave; mBlockSize := mBlockSize slave |} in
  (true, {| this := with_mSlaves (map reinit (mSlaves i)) (mSlaves_capacity i) i;
            outputs := outputs w;
            published := published w ++ [RealtimeResumed] |}).

Definition RealtimeAddProcessor `{SettingsVariants} `{CompressorProcessorClass} `{VectorGrowth}
    (settings : EffectSettings) (pOutputs : EffectOutputs_ptr) (numChannels : Z)
    (sampleRate : Q) (w : World) : outcome (bool * World) :=
  let i := this w in
  let '(slaves, cap) := emplace_back (mSlaves i) (mSlaves_capacity i) construct in
  match last slaves with
  | None => ContractViolation
  | Some back =>
      back ← InstanceInit (GetBlockSize i) settings
               (dynamic_cast_DynamicRangeProcessorOutputs pOutputs) back numChannels sampleRate;
      mret (true, {| this := with_mSlaves (<[pred (length slaves) := back]> slaves) cap i;
                     outputs := outputs w; published := published w |})
  end.

Definition RealtimeFinalize `{SettingsVariants} `{CompressorProcessorClass}
    (settings : EffectSettings) (w : World) : bool * World :=
  let i := this w in
  (true, {| this := {| mCompressor := mCompressor i; mSlaves := [];
                       mSlaves_capacity := mSlaves_capacity i;
                       mSampleCounter := mSampleCounter i; mSampleRate := None;
                       mpOutputs := mpOutputs i; mBlockSize := mBlockSize i |};
            outputs := outputs w;
            published := published w ++ [InitializeProcessingSettings None] |}).

(** The packet [RealtimeProcess] fills in for a context whose core has just
    processed a block. *)
Definition newPacket_of `{CompressorProcessorClass}
    (slave : CompressorInstance) (compressor : CompressorProcessor) : StatisticsPacket :=
  let frameStats := GetLastFrameStats compressor in
  let compressorSettings := GetSettings compressor in
  let netGain := outCompressionThreshDb compressorSettings - inCompressionThreshDb compressorSettings in
  let targetCompressionDb :=
    EvaluateTransferFunction compressor (maxInputSampleDb frameStats)
    - maxInputSampleDb frameStats - netGain in
  {| indexOfFirstSample := mSampleCounter slave;
     targetCompressionDb := targetCompressionDb;
     actualCompressionDb := dbAttenuationOfMaxInputSample frameStats |}.

Definition RealtimeProcess `{SettingsVariants} `{CompressorProcessorClass}
    (group : N) (settings : EffectSettings) (inbuf outbuf : AudioBlock) (numSamples : N)
    (w : World) : outcome (N * AudioBlock * World) :=
  let i := this w in
  if bool_decide (N.of_nat (length (mSlaves i)) ≤ group)%N then mret (0%N, outbuf, w)
  else
    match mSlaves i !! N.to_nat group with
    | None => ContractViolation
    | Some slave =>
        '(numProcessedSamples, compressor, outbuf) ←
          InstanceProcess settings (mCompressor slave) inbuf outbuf numSamples;
        let outs :=
          match mpOutputs slave with
          | Some p => emit p (newPacket_of slave compressor) (outputs w)
          | None => outputs w
          end in
        let slave := advance compressor numProcessedSamples slave in
        mret (numProcessedSamples, outbuf,
              {| this := with_mSlaves (<[N.to_nat group := slave]> (mSlaves i)) (mSlaves_capacity i) i;
                 outputs := outs; published := published w |})
    end.

Definition RealtimePassThrough `{SettingsVariants} `{CompressorProcessorClass}
    (group : N) (settings : EffectSettings) (inbuf : AudioBlock) (numSamples : N)
    (w : World) : World :=
  let i := this w in
  if bool_decide (group < N.of_nat (length (mSlaves i)))%N then
    match mSlaves i !! N.to_nat group with
    | None => w
    | Some slave =>
        {| this := with_mSlaves
                     (<[N.to_nat group := advance (mCompressor slave) numSamples slave]> (mSlaves i))
                     (mSlaves_capacity i) i;
           outputs := outputs w; published := published w |}
    end
  else w.

Definition GetLatency `{SettingsVariants} `{CompressorProcessorClass}
    (w : World) (settings : EffectSettings) (sampleRate : Q) : outcome Z :=
  d ← GetDynamicRangeProcessorSettings settings;
  mret (truncate (lookaheadMs d * sampleRate / 1000)).

(** ** Sequences of realtime calls *)

(** One call of the audio callback. *)
Inductive RealtimeCall `{SettingsVariants} : Type :=
| CallProcess (group : N) (settings : EffectSettings) (inbuf outbuf : AudioBlock) (numSamples : N)
| CallPassThrough (group : N) (settings : EffectSettings) (inbuf : AudioBlock) (numSamples : N).

Definition call_group `{SettingsVariants} (c : RealtimeCall) : N :=
  match c with
  | CallProcess group _ _ _ _ => group
  | CallPassThrough group _ _ _ => group
  end.

Definition call_numSamples `{SettingsVariants} (c : RealtimeCall) : N :=
  match c with
  | CallProcess _ _ _ _ numSamples => numSamples
  | CallPassThrough _ _ _ numSamples => numSamples
  end.

(** The settings a call hands to [GetDynamicRangeProcessorSettings], if it
    gets that far: [RealtimePassThrough] never looks at its settings. *)
Definition call_settings_ok `{SettingsVariants} (c : RealtimeCall) : Prop :=
  match c with
  | CallProcess _ settings _ _ _ => GetDynamicRangeProcessorSettings settings <> ContractViolation
  | CallPassThrough _ _ _ _ => True
  end.

Definition do_call `{SettingsVariants} `{CompressorProcessorClass}
    (c : RealtimeCall) (w : World) : outcome World :=
  match c with
  | CallProcess group settings inbuf outbuf numSamples =>
      '(_, _, w) ← RealtimeProcess group settings inbuf outbuf numSamples w;
      mret w
  | CallPassThrough group settings inbuf numSamples =>
      mret (RealtimePassThrough group settings inbuf numSamples w)
  end.

Fixpoint do_calls `{SettingsVariants} `{CompressorProcessorClass}
    (calls : list RealtimeCall) (w : World) : outcome World :=
  match calls with
  | [] => mret w
  | c :: calls => w ← do_call c w; do_calls calls w
  end.

(** The number of samples a sequence of calls passes for [group]. *)
Fixpoint samples_passed `{SettingsVariants} (group : N) (calls : list RealtimeCall) : Z :=
  match calls with
  | [] => 0
  | c :: calls =>
      ((if bool_decide (call_group c = group) then Z.of_N (call_numSamples c) else 0)
       + samples_passed group calls)%Z
  end.

(** The arguments of one [RealtimeAddProcessor] call. *)
Record AddProcessorArgs `{SettingsVariants} : Type := {
  add_settings : EffectSettings;
  add_pOutputs : EffectOutputs_ptr;
  add_numChannels : Z;
  add_sampleRate : Q
}.

Fixpoint add_processors `{SettingsVariants} `{CompressorProcessorClass} `{VectorGrowth}
    (adds : list AddProcessorArgs) (w : World) : outcome World :=
  match adds with
  | [] => mret w
  | a :: adds =>
      '(_, w) ← RealtimeAddProcessor (add_settings a) (add_pOutputs a)
                  (add_numChannels a) (add_sampleRate a) w;
      add_processors adds w
  end.

(** The counter of the context of [group], if there is one. *)
Definition counter_of `{CompressorProcessorClass} (group : N) (w : World) : option Z :=
  mSampleCounter <$> (mSlaves (this w) !! N.to_nat group).

(** [DynamicRangeProcessorSettings] with another lookahead duration. *)
Definition with_lookaheadMs (l : Q) (d : DynamicRangeProcessorSettings) : DynamicRangeProcessorSettings :=
  {| inCompressionThreshDb := inCompressionThreshDb d;
     outCompressionThreshDb := outCompressionThreshDb d;
     kneeWidthDb := kneeWidthDb d;
     compressionRatio := compressionRatio d;
     lookaheadMs := l;
     attackMs := attackMs d;
     releaseMs := releaseMs d |}.

(** The core of a context after a block: settings applied, block processed. *)
Definition core_after `{CompressorProcessorClass}
    (d : DynamicRangeProcessorSettings) (slave : CompressorInstance)
    (inbuf outbuf : AudioBlock) (numSamples : N) : CompressorProcessor :=
  (Process inbuf outbuf numSamples (ApplySettingsIfNeeded d (mCompressor slave))).1.

(** ** Instances on which the model runs *)

(** The growth policy of the common standard libraries: capacity 1 first,
    then doubling. *)
Definition doubling : VectorGrowth := {|
  grow := fun cap => Nat.max 1 (2 * cap)
|}.

(** Settings variants that carry the processor settings as they are. *)
Definition plainSettings : SettingsVariants := {|
  CompressorSettings := DynamicRangeProcessorSettings;
  LimiterSettings := DynamicRangeProcessorSettings;
  fromCompressorSettings := fun s => s;
  fromLimiterSettings := fun s => s
|}.

(** A core that leaves the signal as it is: its state is the settings last
    applied, its transfer function the identity. *)
Definition unityProcessor : CompressorProcessorClass := {|
  CompressorProcessor := DynamicRangeProcessorSettings;
  make_CompressorProcessor :=
    {| inCompressionThreshDb := -10; outCompressionThreshDb := -10; kneeWidthDb := 5;
       compressionRatio := 10; lookaheadMs := 1; attackMs := 30; releaseMs := 150 |};
  ApplySettingsIfNeeded := fun d _ => d;
  Init := fun _ _ _ c => c;
  Reinit := fun c => c;
  Process := fun inBlock _ _ c => (c, inBlock);
  GetLastFrameStats := fun _ => {| maxInputSampleDb := 0; dbAttenuationOfMaxInputSample := 0 |};
  GetSettings := fun c => c;
  EvaluateTransferFunction := fun _ x => x
|}.

(** A logarithm stand-in: the chord of [log2] through 1 and 2. *)
Definition chordLog : MathApprox := {|
  log2ToDb := 6;
  FastLog2 := fun r => r - 1
|}.

(** A limiter with 1 ms of lookahead, and the same with 1.5 ms. *)
Definition limiter1 : DynamicRangeProcessorSettings :=
  {| inCompressionThreshDb := -5; outCompressionThreshDb := -1; kneeWidthDb := 2;
     compressionRatio := 100; lookaheadMs := 1; attackMs := 1; releaseMs := 20 |}.

Definition limiter1_5 : DynamicRangeProcessorSettings := with_lookaheadMs (3 # 2) limiter1.

(** A newly constructed instance with no telemetry written anywhere. *)
Definition fresh_world `{CompressorProcessorClass} : World :=
  {| this := construct; outputs := ∅; published := [] |}.


(** A realtime context that has passed [counter] samples and reports to the
    telemetry object at [p], if any. *)
Definition context_at `{CompressorProcessorClass}
    (core : CompressorProcessor) (counter : Z) (p : option addr) : CompressorInstance :=
  {| mCompressor := core; mSlaves := []; mSlaves_capacity := 0;
     mSampleCounter := counter; mSampleRate := None; mpOutputs := p; mBlockSize := 0 |}.

(** An instance in realtime use with the given contexts. *)
Definition realtime_world `{CompressorProcessorClass}
    (contexts : list CompressorInstance) : World :=
  {| this := with_mSlaves contexts (length contexts) (SetBlockSize 512 construct);
     outputs := ∅;
     published := [InitializeProcessingSettings (Some 44100)] |}.

(** Such a context around the pass-through core, with [limiter1] applied. *)
Definition unity_context (counter : Z) (p : option addr) : @CompressorInstance unityProcessor :=
  @context_at unityProcessor limiter1 counter p.

(** Snapshots holding [limiter1] as limiter settings and as compressor
    settings, and the limiter with the longer lookahead. *)
Definition limiterSnapshot : @EffectSettings plainSettings :=
  @HoldsLimiterSettings plainSettings limiter1.

Definition compressorSnapshot : @EffectSettings plainSettings :=
  @HoldsCompressorSettings plainSettings limiter1.

Definition limiterSnapshot1_5 : @EffectSettings plainSettings :=
  @HoldsLimiterSettings plainSettings limiter1_5.

(** A snapshot holding neither variant. *)
Definition foreignSnapshot : @EffectSettings plainSettings := @HoldsOther plainSettings.

(** One context reporting to the telemetry object at address 7. *)
Definition one_add : @AddProcessorArgs plainSettings :=
  {| add_settings := limiterSnapshot; add_pOutputs := DynamicRangeOutputs 7%nat;
     add_numChannels := 2; add_sampleRate := 44100 |}.

(** A block processed, a block bypassed, and a block for a group that was
    never added. *)
Definition playback : list (@RealtimeCall plainSettings) :=
  [ CallProcess 0 limiterSnapshot [[1; -1]] [[0; 0]] 512;
    CallPassThrough 0 foreignSnapshot [[1; -1]] 256;
    CallProcess 1 limiterSnapshot [[1; -1]] [[0; 0]] 64 ].


(** ** What the realtime calls leave alone *)

(** Everything of the world that neither [RealtimeProcess] nor
    [RealtimePassThrough] writes: the offline core, the sample rate, the
    block size, the capacity of [mSlaves], the notifications, the number of
    contexts and the telemetry pointer of each. *)
Definition realtime_frame `{CompressorProcessorClass} (w w' : World) : Prop :=
  mCompressor (this w') = mCompressor (this w)
  /\ mSampleRate (this w') = mSampleRate (this w)
  /\ mBlockSize (this w') = mBlockSize (this w)
  /\ mSlaves_capacity (this w') = mSlaves_capacity (this w)
  /\ published w' = published w
  /\ length (mSlaves (this w')) = length (mSlaves (this w))
  /\ forall j, mpOutputs <$> (mSlaves (this w') !! j) = mpOutputs <$> (mSlaves (this w) !! j).

(** The number of [RealtimeProcess] calls in a sequence. *)
Fixpoint process_calls `{SettingsVariants} (calls : list RealtimeCall) : nat :=
  match calls with
  | [] => 0
  | CallProcess _ _ _ _ _ :: calls => S (process_calls calls)
  | CallPassThrough _ _ _ _ :: calls => process_calls calls
  end.

(** Two contexts in realtime use: the first has passed 512 samples and
    reports to the telemetry object at address 7, the second has none. *)
Definition two_contexts : @World unityProcessor :=
  @realtime_world unityProcessor [unity_context 512 (Some 7%nat); unity_context 0 None].
(** * Properties *)

(** ** Settings retrieval *)

Lemma GetDynamicRangeProcessorSettings_Returns `{SettingsVariants} (settings : EffectSettings) :
  GetDynamicRangeProcessorSettings settings <> ContractViolation ->
  exists d, GetDynamicRangeProcessorSettings settings = Returns d.
Proof.
  destruct (GetDynamicRangeProcessorSettings settings) as [d|]; [eauto | congruence].
Qed.

(** C9. A snapshot holding compressor or limiter settings yields the
    corresponding processor settings, so under that precondition the
    unchecked dereference is never reached; a snapshot holding neither is a
    fatal contract violation, and no caller recovers from it: the latency
    query, the offline block and a realtime block on an existing context all
    end the same way. *)
Theorem GetDynamicRangeProcessorSettings_contract `{SettingsVariants} `{CompressorProcessorClass}
    (settings : EffectSettings) :
  match settings with
  | HoldsCompressorSettings s =>
      GetDynamicRangeProcessorSettings settings = Returns (fromCompressorSettings s)
  | HoldsLimiterSettings s =>
      GetDynamicRangeProcessorSettings settings = Returns (fromLimiterSettings s)
  | HoldsOther =>
      GetDynamicRangeProcessorSettings settings = ContractViolation
      /\ (forall w sampleRate, GetLatency w settings sampleRate = ContractViolation)
      /\ (forall w inBlock outBlock blockLen,
            ProcessBlock settings inBlock outBlock blockLen w = ContractViolation)
      /\ (forall w group inbuf outbuf numSamples,
            (group < N.of_nat (length (mSlaves (this w))))%N ->
            RealtimeProcess group settings inbuf outbuf numSamples w = ContractViolation)
  end.
Proof.
  destruct settings as [s|s|]; try reflexivity.
  repeat split; try reflexivity.
  intros w group inbuf outbuf numSamples Hlt.
  unfold RealtimeProcess.
  rewrite bool_decide_eq_false_2 by lia.
  destruct (mSlaves (this w) !! N.to_nat group); reflexivity.
Qed.

(** ** Out-of-range groups *)

Lemma RealtimeProcess_no_context `{SettingsVariants} `{CompressorProcessorClass}
    (w : World) (group : N) (settings : EffectSettings) (inbuf outbuf : AudioBlock) (numSamples : N) :
  (N.of_nat (length (mSlaves (this w))) <= group)%N ->
  RealtimeProcess group settings inbuf outbuf numSamples w = Returns (0%N, outbuf, w).
Proof.
  intros Hge. unfold RealtimeProcess.
  rewrite bool_decide_eq_true_2 by exact Hge. reflexivity.
Qed.

(** C3. With a group index at or beyond the number of contexts,
    [RealtimeProcess] returns 0 and the world it leaves is the world it
    found: every context (counter, core, telemetry pointer), every telemetry
    object, the notifications and the output block are what they were. The
    settings are not even inspected. *)
Theorem RealtimeProcess_out_of_range `{SettingsVariants} `{CompressorProcessorClass}
    (w : World) (group : N) (settings : EffectSettings) (inbuf outbuf : AudioBlock) (numSamples : N) :
  (N.of_nat (length (mSlaves (this w))) <= group)%N ->
  exists w',
    RealtimeProcess group settings inbuf outbuf numSamples w = Returns (0%N, outbuf, w')
    /\ w' = w
    /\ mSlaves (this w') = mSlaves (this w)
    /\ outputs w' = outputs w
    /\ forall g, counter_of g w' = counter_of g w.
Proof.
  intros Hge. exists w.
  split; [apply RealtimeProcess_no_context, Hge|].
  repeat split.
Qed.

(** ** One realtime block on an existing context *)

Lemma InstanceProcess_Returns `{SettingsVariants} `{CompressorProcessorClass}
    (settings : EffectSettings) (d : DynamicRangeProcessorSettings) (core : CompressorProcessor)
    (inBlock outBlock : AudioBlock) (blockLen : N) :
  GetDynamicRangeProcessorSettings settings = Returns d ->
  InstanceProcess settings core inBlock outBlock blockLen
  = Returns (blockLen,
             (Process inBlock outBlock blockLen (ApplySettingsIfNeeded d core)).1,
             (Process inBlock outBlock blockLen (ApplySettingsIfNeeded d core)).2).
Proof.
  intros Hd. unfold InstanceProcess. rewrite Hd. simpl.
  destruct (Process inBlock outBlock blockLen (ApplySettingsIfNeeded d core)); reflexivity.
Qed.

Lemma RealtimeProcess_in_range `{SettingsVariants} `{CompressorProcessorClass}
    (w : World) (group : N) (settings : EffectSettings) (inbuf outbuf : AudioBlock)
    (numSamples : N) (slave : CompressorInstance) (d : DynamicRangeProcessorSettings) :
  mSlaves (this w) !! N.to_nat group = Some slave ->
  GetDynamicRangeProcessorSettings settings = Returns d ->
  RealtimeProcess group settings inbuf outbuf numSamples w
  = Returns (numSamples,
             (Process inbuf outbuf numSamples (ApplySettingsIfNeeded d (mCompressor slave))).2,
             {| this := with_mSlaves
                          (<[N.to_nat group :=
                               advance (core_after d slave inbuf outbuf numSamples) numSamples slave]>
                             (mSlaves (this w)))
                          (mSlaves_capacity (this w)) (this w);
                outputs := match mpOutputs slave with
                           | Some p => emit p (newPacket_of slave (core_after d slave inbuf outbuf numSamples))
                                         (outputs w)
                           | None => outputs w
                           end;
                published := published w |}).
Proof.
  intros Hslave Hd. unfold RealtimeProcess.
  pose proof (lookup_lt_Some _ _ _ Hslave) as Hlt.
  rewrite bool_decide_eq_false_2 by lia.
  rewrite Hslave.
  rewrite (InstanceProcess_Returns settings d) by exact Hd.
  reflexivity.
Qed.

Lemma emit_lookup_total (p : addr) (pkt : StatisticsPacket) (outs : gmap addr (list StatisticsPacket)) :
  emit p pkt outs !!! p = outs !!! p ++ [pkt].
Proof. unfold emit. apply lookup_total_insert_eq. Qed.

Lemma emit_lookup_total_ne (p q : addr) (pkt : StatisticsPacket) (outs : gmap addr (list StatisticsPacket)) :
  p <> q -> emit p pkt outs !!! q = outs !!! q.
Proof. intros Hne. unfold emit. apply lookup_total_insert_ne. exact Hne. Qed.

(** C8. With settings of a recognised variant, [ProcessBlock] returns its
    [blockLen] and [RealtimeProcess] on an existing context returns its
    [numSamples]: neither path processes a part of a block. With other
    settings neither call returns (C9). *)
Theorem process_returns_block_length `{SettingsVariants} `{CompressorProcessorClass} :
  (forall (w : World) (settings : EffectSettings) (d : DynamicRangeProcessorSettings)
          (inBlock outBlock : AudioBlock) (blockLen : N),
      GetDynamicRangeProcessorSettings settings = Returns d ->
      exists outBlock' w',
        ProcessBlock settings inBlock outBlock blockLen w = Returns (blockLen, outBlock', w'))
  /\ (forall (w : World) (settings : EffectSettings) (inBlock outBlock : AudioBlock)
             (blockLen : N) (r : N * AudioBlock * World),
        ProcessBlock settings inBlock outBlock blockLen w = Returns r -> r.1.1 = blockLen)
  /\ (forall (w : World) (group : N) (slave : CompressorInstance)
             (settings : EffectSettings) (d : DynamicRangeProcessorSettings)
             (inbuf outbuf : AudioBlock) (numSamples : N),
        mSlaves (this w) !! N.to_nat group = Some slave ->
        GetDynamicRangeProcessorSettings settings = Returns d ->
        exists outbuf' w',
          RealtimeProcess group settings inbuf outbuf numSamples w
          = Returns (numSamples, outbuf', w')).
Proof.
  split; [|split].
  - intros w settings d inBlock outBlock blockLen Hd. unfold ProcessBlock.
    rewrite (InstanceProcess_Returns settings d) by exact Hd.
    simpl. eauto.
  - intros w settings inBlock outBlock blockLen r. unfold ProcessBlock.
    destruct (GetDynamicRangeProcessorSettings settings) as [d|] eqn:Hd.
    + rewrite (InstanceProcess_Returns settings d) by exact Hd.
      simpl. intros [= <-]. reflexivity.
    + unfold InstanceProcess. rewrite Hd. simpl. discriminate.
  - intros w group slave settings d inbuf outbuf numSamples Hslave Hd.
    rewrite (RealtimeProcess_in_range w group settings inbuf outbuf numSamples slave d)
      by assumption.
    eauto.
Qed.

(** C1. On an existing context with a telemetry object attached, the packet
    the call appends has as target compression the transfer function at the
    peak input level of the block just processed, minus that level, minus
    the difference of the output and input thresholds of the settings the
    core holds after the call. *)
Theorem RealtimeProcess_targetCompressionDb `{SettingsVariants} `{CompressorProcessorClass}
    (w : World) (group : N) (settings : EffectSettings) (d : DynamicRangeProcessorSettings)
    (inbuf outbuf : AudioBlock) (numSamples : N) (slave : CompressorInstance) (p : addr) :
  mSlaves (this w) !! N.to_nat group = Some slave ->
  mpOutputs slave = Some p ->
  GetDynamicRangeProcessorSettings settings = Returns d ->
  exists outbuf' w' slave' newPacket,
    RealtimeProcess group settings inbuf outbuf numSamples w = Returns (numSamples, outbuf', w')
    /\ mSlaves (this w') !! N.to_nat group = Some slave'
    /\ mCompressor slave' = core_after d slave inbuf outbuf numSamples
    /\ outputs w' !!! p = outputs w !!! p ++ [newPacket]
    /\ targetCompressionDb newPacket
       = EvaluateTransferFunction (mCompressor slave')
           (maxInputSampleDb (GetLastFrameStats (mCompressor slave')))
         - maxInputSampleDb (GetLastFrameStats (mCompressor slave'))
         - (outCompressionThreshDb (GetSettings (mCompressor slave'))
            - inCompressionThreshDb (GetSettings (mCompressor slave'))).
Proof.
  intros Hslave Hp Hd.
  rewrite (RealtimeProcess_in_range w group settings inbuf outbuf numSamples slave d)
    by assumption.
  rewrite Hp.
  eexists _, _, _, _. split; [reflexivity|]. simpl.
  split; [apply list_lookup_insert_eq; eapply lookup_lt_Some; exact Hslave|].
  split; [reflexivity|].
  split; [apply emit_lookup_total|].
  reflexivity.
Qed.

(** ** Telemetry packets *)

Lemma ProcessBlock_outputs `{SettingsVariants} `{CompressorProcessorClass}
    (w : World) (settings : EffectSettings) (inBlock outBlock : AudioBlock) (blockLen : N)
    (r : N * AudioBlock * World) :
  ProcessBlock settings inBlock outBlock blockLen w = Returns r ->
  outputs r.2 = outputs w.
Proof.
  unfold ProcessBlock, InstanceProcess.
  destruct (GetDynamicRangeProcessorSettings settings) as [d|]; simpl; [|discriminate].
  destruct (Process inBlock outBlock blockLen (ApplySettingsIfNeeded d (mCompressor (this w)))).
  simpl. intros [= <-]. reflexivity.
Qed.

Lemma RealtimeAddProcessor_first `{SettingsVariants} `{CompressorProcessorClass} `{VectorGrowth}
    (w : World) (settings : EffectSettings) (d : DynamicRangeProcessorSettings)
    (pOutputs : EffectOutputs_ptr) (numChannels : Z) (sampleRate : Q) :
  mSlaves (this w) = [] ->
  GetDynamicRangeProcessorSettings settings = Returns d ->
  exists w' core,
    RealtimeAddProcessor settings pOutputs numChannels sampleRate w = Returns (true, w')
    /\ mSlaves (this w')
       = [context_at core 0 (dynamic_cast_DynamicRangeProcessorOutputs pOutputs)]
    /\ outputs w' = outputs w.
Proof.
  intros Hempty Hd. unfold RealtimeAddProcessor, emplace_back. rewrite Hempty.
  case_bool_decide; simpl; unfold InstanceInit; rewrite Hd; simpl;
    eexists _, _; (split; [reflexivity|]); split; reflexivity.
Qed.

(** The scenario of the design document: initialise, add one context with a
    telemetry object, process 512 samples and then 256. *)
Lemma first_blocks_scenario `{SettingsVariants} `{CompressorProcessorClass} `{VectorGrowth}
    (w0 : World) (initSettings : EffectSettings) (limiter : LimiterSettings) (p : addr)
    (in1 out1 in2 out2 : AudioBlock) :
  exists w2 w3 w4 out1' out2' packet1 packet2,
    RealtimeAddProcessor (HoldsLimiterSettings limiter) (DynamicRangeOutputs p) 2 44100
      (RealtimeInitialize initSettings 44100 w0).2 = Returns (true, w2)
    /\ RealtimeProcess 0 (HoldsLimiterSettings limiter) in1 out1 512 w2 = Returns (512%N, out1', w3)
    /\ RealtimeProcess 0 (HoldsLimiterSettings limiter) in2 out2 256 w3 = Returns (256%N, out2', w4)
    /\ outputs w3 !!! p = outputs w0 !!! p ++ [packet1]
    /\ outputs w4 !!! p = outputs w0 !!! p ++ [packet1; packet2]
    /\ indexOfFirstSample packet1 = 0%Z
    /\ indexOfFirstSample packet2 = 512%Z.
Proof.
  destruct (RealtimeAddProcessor_first (RealtimeInitialize initSettings 44100 w0).2
              (HoldsLimiterSettings limiter) (fromLimiterSettings limiter)
              (DynamicRangeOutputs p) 2 44100 eq_refl eq_refl)
    as (w2 & core & Hadd & Hslaves & Houts).
  pose proof (RealtimeProcess_in_range w2 0 (HoldsLimiterSettings limiter) in1 out1 512
                (context_at core 0 (Some p)) (fromLimiterSettings limiter)) as Hfirst.
  rewrite Hslaves in Hfirst. specialize (Hfirst eq_refl eq_refl).
  simpl in Hfirst.
  match type of Hfirst with _ = Returns (_, _, ?w) => set (w3 := w) in * end.
  pose proof (RealtimeProcess_in_range w3 0 (HoldsLimiterSettings limiter) in2 out2 256
                (advance (core_after (fromLimiterSettings limiter) (context_at core 0 (Some p))
                            in1 out1 512) 512 (context_at core 0 (Some p)))
                (fromLimiterSettings limiter) eq_refl eq_refl) as Hsecond.
  simpl in Hsecond.
  eexists w2, w3, _, _, _, _, _.
  split; [exact Hadd|].
  split; [exact Hfirst|].
  split; [exact Hsecond|].
  simpl. rewrite Houts.
  rewrite !emit_lookup_total. simpl.
  split; [reflexivity|]. split; [rewrite <- app_assoc; reflexivity|].
  split; reflexivity.
Qed.

(** C7. A realtime block on an existing context appends one packet to the
    telemetry object of that context when one is attached, and touches no
    telemetry object otherwise; the packet carries the value the counter had
    before the call, and the counter then moves on by the block length. In
    the scenario of the design document the first packet has index 0 and the
    next 512. The offline [ProcessBlock] leaves every telemetry object as it
    was. *)
Theorem RealtimeProcess_packets `{SettingsVariants} `{CompressorProcessorClass} `{VectorGrowth} :
  (forall (w : World) (group : N) (slave : CompressorInstance)
          (settings : EffectSettings) (d : DynamicRangeProcessorSettings)
          (inbuf outbuf : AudioBlock) (numSamples : N),
      mSlaves (this w) !! N.to_nat group = Some slave ->
      GetDynamicRangeProcessorSettings settings = Returns d ->
      exists outbuf' w' newPacket,
        RealtimeProcess group settings inbuf outbuf numSamples w
        = Returns (numSamples, outbuf', w')
        /\ outputs w' = match mpOutputs slave with
                        | Some p => <[p := outputs w !!! p ++ [newPacket]]> (outputs w)
                        | None => outputs w
                        end
        /\ indexOfFirstSample newPacket = mSampleCounter slave
        /\ counter_of group w' = Some (wrap_int64 (mSampleCounter slave + Z.of_N numSamples)))
  /\ (forall (w : World) settings inBlock outBlock blockLen r,
        ProcessBlock settings inBlock outBlock blockLen w = Returns r ->
        outputs r.2 = outputs w)
  /\ (forall (w0 : World) initSettings limiter p in1 out1 in2 out2,
        exists w2 w3 w4 out1' out2' packet1 packet2,
          RealtimeAddProcessor (HoldsLimiterSettings limiter) (DynamicRangeOutputs p) 2 44100
            (RealtimeInitialize initSettings 44100 w0).2 = Returns (true, w2)
          /\ RealtimeProcess 0 (HoldsLimiterSettings limiter) in1 out1 512 w2
             = Returns (512%N, out1', w3)
          /\ RealtimeProcess 0 (HoldsLimiterSettings limiter) in2 out2 256 w3
             = Returns (256%N, out2', w4)
          /\ outputs w3 !!! p = outputs w0 !!! p ++ [packet1]
          /\ outputs w4 !!! p = outputs w0 !!! p ++ [packet1; packet2]
          /\ indexOfFirstSample packet1 = 0%Z
          /\ indexOfFirstSample packet2 = 512%Z).
Proof.
  split; [|split].
  - intros w group slave settings d inbuf outbuf numSamples Hslave Hd.
    rewrite (RealtimeProcess_in_range w group settings inbuf outbuf numSamples slave d)
      by assumption.
    eexists _, _, (newPacket_of slave (core_after d slave inbuf outbuf numSamples)).
    split; [reflexivity|]. simpl.
    split; [reflexivity|]. split; [reflexivity|].
    unfold counter_of. simpl.
    rewrite list_lookup_insert_eq by (eapply lookup_lt_Some; exact Hslave).
    reflexivity.
  - intros w settings inBlock outBlock blockLen r. apply ProcessBlock_outputs.
  - intros. apply first_blocks_scenario.
Qed.

(** ** The sample counter *)

Lemma wrap_int64_small (z : Z) :
  (- 2 ^ 63 <= z < 2 ^ 63)%Z -> wrap_int64 z = z.
Proof.
  intros Hz. unfold wrap_int64.
  rewrite Z.mod_small by lia. lia.
Qed.

Lemma wrap_int64_add (a b : Z) :
  wrap_int64 (wrap_int64 a + b) = wrap_int64 (a + b).
Proof.
  unfold wrap_int64.
  replace ((a + 2 ^ 63) mod 2 ^ 64 - 2 ^ 63 + b + 2 ^ 63)%Z
    with ((a + 2 ^ 63) mod 2 ^ 64 + b)%Z by lia.
  replace (a + b + 2 ^ 63)%Z with ((a + 2 ^ 63) + b)%Z by lia.
  rewrite Zplus_mod_idemp_l. reflexivity.
Qed.

Lemma samples_passed_nonneg `{SettingsVariants} (group : N) (calls : list RealtimeCall) :
  (0 <= samples_passed group calls)%Z.
Proof.
  induction calls as [|c calls IH]; simpl; [lia|].
  case_bool_decide; lia.
Qed.

Lemma samples_passed_app `{SettingsVariants} (group : N) (l1 l2 : list RealtimeCall) :
  samples_passed group (l1 ++ l2) = (samples_passed group l1 + samples_passed group l2)%Z.
Proof.
  induction l1 as [|c l1 IH]; simpl; [reflexivity|]. rewrite IH. lia.
Qed.

(** What one call does to the counters: the context it addresses moves on by
    [numSamples], every other context stays, and contexts neither appear nor
    disappear. *)
Lemma do_call_counter `{SettingsVariants} `{CompressorProcessorClass}
    (c : RealtimeCall) (w : World) :
  call_settings_ok c ->
  exists w',
    do_call c w = Returns w'
    /\ length (mSlaves (this w')) = length (mSlaves (this w))
    /\ forall group,
         counter_of group w'
         = (fun n => if bool_decide (call_group c = group)
                     then wrap_int64 (n + Z.of_N (call_numSamples c)) else n)
           <$> counter_of group w.
Proof.
  intros Hok. destruct c as [g settings inbuf outbuf n | g settings inbuf n]; simpl in *.
  - apply GetDynamicRangeProcessorSettings_Returns in Hok as [d Hd].
    destruct (mSlaves (this w) !! N.to_nat g) as [slave|] eqn:Hslave.
    + rewrite (RealtimeProcess_in_range w g settings inbuf outbuf n slave d) by assumption.
      simpl. eexists. split; [reflexivity|]. simpl.
      split; [apply length_insert|].
      intros group. unfold counter_of. simpl.
      case_bool_decide as Hg.
      * subst group.
        rewrite list_lookup_insert_eq by (eapply lookup_lt_Some; exact Hslave).
        rewrite Hslave. reflexivity.
      * rewrite list_lookup_insert_ne by (intros Heq; apply Hg, N2Nat.inj, Heq).
        destruct (mSlaves (this w) !! N.to_nat group); reflexivity.
    + apply lookup_ge_None in Hslave.
      rewrite RealtimeProcess_no_context by lia.
      simpl. eexists. split; [reflexivity|]. split; [reflexivity|].
      intros group. unfold counter_of.
      case_bool_decide as Hg; [subst group|].
      * rewrite (proj2 (lookup_ge_None _ _) Hslave). reflexivity.
      * destruct (mSlaves (this w) !! N.to_nat group); reflexivity.
  - eexists. split; [reflexivity|].
    unfold RealtimePassThrough.
    case_bool_decide as Hlt.
    + destruct (mSlaves (this w) !! N.to_nat g) as [slave|] eqn:Hslave.
      * simpl. split; [apply length_insert|].
        intros group. unfold counter_of. simpl.
        case_bool_decide as Hg.
        -- subst group.
           rewrite list_lookup_insert_eq by (eapply lookup_lt_Some; exact Hslave).
           rewrite Hslave. reflexivity.
        -- rewrite list_lookup_insert_ne by (intros Heq; apply Hg, N2Nat.inj, Heq).
           destruct (mSlaves (this w) !! N.to_nat group); reflexivity.
      * apply lookup_ge_None in Hslave. lia.
    + split; [reflexivity|].
      intros group. unfold counter_of.
      case_bool_decide as Hg; [subst group|].
      * rewrite (proj2 (lookup_ge_None _ _)) by lia. reflexivity.
      * destruct (mSlaves (this w) !! N.to_nat group); reflexivity.
Qed.

Lemma wrap_int64_idemp (a : Z) : wrap_int64 (wrap_int64 a) = wrap_int64 a.
Proof.
  pose proof (wrap_int64_add a 0) as Hadd.
  rewrite !Z.add_0_r in Hadd. exact Hadd.
Qed.

(** Over a sequence of calls the counter of each context moves on by the
    samples passed for its group, in 64-bit arithmetic. *)
Lemma do_calls_counter `{SettingsVariants} `{CompressorProcessorClass}
    (calls : list RealtimeCall) (w : World) :
  Forall call_settings_ok calls ->
  exists w',
    do_calls calls w = Returns w'
    /\ length (mSlaves (this w')) = length (mSlaves (this w))
    /\ forall group,
         match counter_of group w with
         | None => counter_of group w' = None
         | Some n =>
             wrap_int64 n = n ->
             counter_of group w' = Some (wrap_int64 (n + samples_passed group calls))
         end.
Proof.
  revert w. induction calls as [|c calls IH]; intros w Hok.
  - exists w. split; [reflexivity|]. split; [reflexivity|].
    intros group. simpl. destruct (counter_of group w) as [n|]; [|reflexivity].
    intros Hn. rewrite Z.add_0_r, Hn. reflexivity.
  - apply Forall_cons in Hok as [Hc Hok].
    destruct (do_call_counter c w Hc) as (w1 & Hcall & Hlen1 & Hctr1).
    destruct (IH w1 Hok) as (w' & Hcalls & Hlen & Hctr).
    exists w'. simpl. rewrite Hcall. simpl.
    split; [exact Hcalls|]. split; [congruence|].
    intros group. specialize (Hctr group). rewrite (Hctr1 group) in Hctr.
    destruct (counter_of group w) as [n|]; simpl in *; [|exact Hctr].
    intros Hn. case_bool_decide.
    + rewrite Hctr by apply wrap_int64_idemp.
      rewrite wrap_int64_add. f_equal. f_equal. lia.
    + rewrite Hctr by exact Hn. reflexivity.
Qed.

Lemma RealtimeAddProcessor_counters `{SettingsVariants} `{CompressorProcessorClass} `{VectorGrowth}
    (w : World) (settings : EffectSettings) (pOutputs : EffectOutputs_ptr)
    (numChannels : Z) (sampleRate : Q) :
  Forall (fun slave => mSampleCounter slave = 0%Z) (mSlaves (this w)) ->
  GetDynamicRangeProcessorSettings settings <> ContractViolation ->
  exists w',
    RealtimeAddProcessor settings pOutputs numChannels sampleRate w = Returns (true, w')
    /\ length (mSlaves (this w')) = S (length (mSlaves (this w)))
    /\ Forall (fun slave => mSampleCounter slave = 0%Z) (mSlaves (this w')).
Proof.
  intros Hzero Hok. apply GetDynamicRangeProcessorSettings_Returns in Hok as [d Hd].
  unfold RealtimeAddProcessor, emplace_back.
  case_bool_decide; rewrite last_snoc; unfold InstanceInit; rewrite Hd; simpl;
    (eexists; split; [reflexivity|]); simpl;
    rewrite length_insert, length_app, ?length_map; simpl;
    (split; [lia|]);
    apply Forall_insert; try reflexivity;
    apply Forall_app; (split; [|repeat constructor]).
  - exact Hzero.
  - apply Forall_map. apply Forall_true. reflexivity.
Qed.

Lemma add_processors_counters `{SettingsVariants} `{CompressorProcessorClass} `{VectorGrowth}
    (adds : list AddProcessorArgs) (w : World) :
  Forall (fun slave => mSampleCounter slave = 0%Z) (mSlaves (this w)) ->
  Forall (fun a => GetDynamicRangeProcessorSettings (add_settings a) <> ContractViolation) adds ->
  exists w',
    add_processors adds w = Returns w'
    /\ length (mSlaves (this w')) = (length (mSlaves (this w)) + length adds)%nat
    /\ Forall (fun slave => mSampleCounter slave = 0%Z) (mSlaves (this w')).
Proof.
  revert w. induction adds as [|a adds IH]; intros w Hzero Hok.
  - exists w. split; [reflexivity|]. split; [simpl; lia | exact Hzero].
  - apply Forall_cons in Hok as [Ha Hok].
    destruct (RealtimeAddProcessor_counters w (add_settings a) (add_pOutputs a)
                (add_numChannels a) (add_sampleRate a) Hzero Ha)
      as (w1 & Hadd & Hlen1 & Hzero1).
    destruct (IH w1 Hzero1 Hok) as (w' & Hadds & Hlen & Hzero').
    exists w'. simpl. rewrite Hadd. simpl.
    split; [exact Hadds|]. split; [lia | exact Hzero'].
Qed.

(** Calls made before any context exists change nothing. *)
Lemma do_calls_no_context `{SettingsVariants} `{CompressorProcessorClass}
    (calls : list RealtimeCall) (w : World) :
  mSlaves (this w) = [] ->
  do_calls calls w = Returns w.
Proof.
  intros Hempty. induction calls as [|c calls IH]; [reflexivity|].
  simpl. destruct c as [g settings inbuf outbuf n | g settings inbuf n]; simpl.
  - rewrite RealtimeProcess_no_context by (rewrite Hempty; simpl; lia).
    simpl. exact IH.
  - unfold RealtimePassThrough.
    rewrite bool_decide_eq_false_2 by (rewrite Hempty; simpl; lia).
    exact IH.
Qed.


(** [RealtimeAddProcessor] on a full vector: the contexts that exist are
    move-constructed into the new storage, which carries over their cores
    only. *)
Lemma RealtimeAddProcessor_full_vector `{SettingsVariants} `{CompressorProcessorClass} `{VectorGrowth}
    (w : World) (settings : EffectSettings) (pOutputs : EffectOutputs_ptr)
    (numChannels : Z) (sampleRate : Q) :
  (mSlaves_capacity (this w) <= length (mSlaves (this w)))%nat ->
  GetDynamicRangeProcessorSettings settings <> ContractViolation ->
  exists w',
    RealtimeAddProcessor settings pOutputs numChannels sampleRate w = Returns (true, w')
    /\ forall g slave,
         mSlaves (this w) !! g = Some slave ->
         mSlaves (this w') !! g = Some (move_construct slave).
Proof.
  intros Hfull Hok. apply GetDynamicRangeProcessorSettings_Returns in Hok as [d Hd].
  unfold RealtimeAddProcessor, emplace_back.
  rewrite bool_decide_eq_false_2 by lia.
  rewrite last_snoc. unfold InstanceInit. rewrite Hd. simpl.
  eexists. split; [reflexivity|]. simpl.
  intros g slave Hslave.
  pose proof (lookup_lt_Some _ _ _ Hslave) as Hlt.
  rewrite length_app, length_map. simpl.
  rewrite list_lookup_insert_ne by lia.
  rewrite lookup_app_l by (rewrite length_map; exact Hlt).
  rewrite list_lookup_fmap, Hslave. reflexivity.
Qed.

(** ** Latency *)

Lemma truncate_nonneg (x : Q) : 0 <= x -> truncate x = Qfloor x.
Proof.
  destruct x as [n d]. unfold Qle, truncate, Qfloor. simpl. intros Hn.
  apply Z.quot_div_nonneg; lia.
Qed.

Lemma truncate_nonpos (x : Q) : x <= 0 -> truncate x = Qceiling x.
Proof.
  destruct x as [n d]. unfold Qle, truncate, Qceiling, Qfloor. simpl. intros Hn.
  replace n with (- - n)%Z at 1 by lia.
  rewrite Z.quot_opp_l by lia.
  rewrite Z.quot_div_nonneg by lia. reflexivity.
Qed.

Lemma truncate_le (x y : Q) : x <= y -> (truncate x <= truncate y)%Z.
Proof.
  intros Hxy.
  destruct (Qlt_le_dec x 0) as [Hx|Hx]; destruct (Qlt_le_dec y 0) as [Hy|Hy].
  - rewrite !truncate_nonpos by (apply Qlt_le_weak; assumption).
    apply Qceiling_resp_le, Hxy.
  - rewrite truncate_nonpos by (apply Qlt_le_weak; assumption).
    rewrite truncate_nonneg by assumption.
    transitivity 0%Z.
    + apply (Qceiling_resp_le x 0). apply Qlt_le_weak, Hx.
    + apply (Qfloor_resp_le 0 y), Hy.
  - exfalso. apply (Qlt_irrefl 0).
    apply Qle_lt_trans with y; [|exact Hy].
    apply Qle_trans with x; assumption.
  - rewrite !truncate_nonneg by assumption.
    apply Qfloor_resp_le, Hxy.
Qed.

Lemma truncate_comp (x y : Q) : x == y -> truncate x = truncate y.
Proof.
  intros Hxy. apply Z.le_antisymm; apply truncate_le; rewrite Hxy; apply Qle_refl.
Qed.

Lemma GetLatency_Returns `{SettingsVariants} `{CompressorProcessorClass}
    (w : World) (settings : EffectSettings) (d : DynamicRangeProcessorSettings) (sampleRate : Q) :
  GetDynamicRangeProcessorSettings settings = Returns d ->
  GetLatency w settings sampleRate = Returns (truncate (lookaheadMs d * sampleRate / 1000)).
Proof. intros Hd. unfold GetLatency. rewrite Hd. reflexivity. Qed.

(** The conversion drops the fraction: its result lies between zero and its
    argument, less than one away from it. *)
Lemma truncate_integer_part (x : Q) :
  (0 <= x -> inject_Z (truncate x) <= x < inject_Z (truncate x) + 1)
  /\ (x <= 0 -> inject_Z (truncate x) - 1 < x <= inject_Z (truncate x)).
Proof.
  split; intros Hx.
  - rewrite truncate_nonneg by exact Hx. split.
    + apply Qfloor_le.
    + pose proof (Qlt_floor x) as Hlt.
      rewrite inject_Z_plus in Hlt. exact Hlt.
  - rewrite truncate_nonpos by exact Hx. split.
    + pose proof (Qceiling_lt x) as Hlt.
      unfold Z.sub in Hlt. rewrite inject_Z_plus in Hlt. exact Hlt.
    + apply Qle_ceiling.
Qed.



(** ** GetMaxDbIncrease *)

Lemma Qlt_bool_iff (a b : Q) : Qlt_bool a b = true <-> a < b.
Proof.
  unfold Qlt_bool. rewrite negb_true_iff, <- not_true_iff_false, Qle_bool_iff.
  split; [apply Qnot_le_lt | apply Qlt_not_le].
Qed.

Lemma Qlt_bool_false_iff (a b : Q) : Qlt_bool a b = false <-> b <= a.
Proof.
  unfold Qlt_bool. rewrite negb_false_iff. apply Qle_bool_iff.
Qed.

Lemma fold_left_ext_in {A B : Type} (f g : A -> B -> A) (l : list B) (a : A) :
  (forall acc x, In x l -> f acc x = g acc x) ->
  fold_left f l a = fold_left g l a.
Proof.
  revert a. induction l as [|x l IH]; intros a Hfg; [reflexivity|].
  simpl. rewrite (Hfg a x) by (left; reflexivity).
  apply IH. intros acc y Hy. apply Hfg. right. exact Hy.
Qed.

(** A property that the initial value has and every iteration keeps holds
    when the loop leaves. *)
Lemma GetMaxDbIncrease_loop_invariant (P : Q -> Prop) (inb outb : list Q) (blockLen : nat) :
  P 0 ->
  (forall leastRatio i, (i < blockLen)%nat -> P leastRatio ->
     P (GetMaxDbIncrease_step inb outb leastRatio i)) ->
  P (GetMaxDbIncrease_loop inb outb blockLen).
Proof.
  intros H0 Hstep. unfold GetMaxDbIncrease_loop.
  assert (Hgen : forall l acc, (forall i, In i l -> (i < blockLen)%nat) -> P acc ->
            P (fold_left (GetMaxDbIncrease_step inb outb) l acc)).
  { induction l as [|i l IH]; intros acc Hl Hacc; [exact Hacc|].
    simpl. apply IH.
    - intros j Hj. apply Hl. right. exact Hj.
    - apply Hstep; [apply Hl; left; reflexivity | exact Hacc]. }
  apply Hgen; [|exact H0].
  intros i Hi. apply in_seq in Hi. lia.
Qed.

(** A block whose input is below the floor everywhere leaves [leastRatio] at
    its initial value, whatever the output holds. *)
Lemma GetMaxDbIncrease_loop_silent (inb outb : list Q) (blockLen : nat) :
  (forall i, (i < blockLen)%nat -> Qabs (nth i inb 0) < silenceFloor) ->
  GetMaxDbIncrease_loop inb outb blockLen = 0.
Proof.
  intros Hsilent.
  apply (GetMaxDbIncrease_loop_invariant (fun r => r = 0)); [reflexivity|].
  intros leastRatio i Hi ->. unfold GetMaxDbIncrease_step.
  rewrite (proj2 (Qlt_bool_iff _ _) (Hsilent i Hi)). reflexivity.
Qed.

Lemma GetMaxDbIncrease_silent `{MathApprox} (inb outb : list Q) (blockLen : nat) :
  (forall i, (i < blockLen)%nat -> Qabs (nth i inb 0) < silenceFloor) ->
  GetMaxDbIncrease inb outb blockLen = NegInfinity.
Proof.
  intros Hsilent. unfold GetMaxDbIncrease.
  rewrite GetMaxDbIncrease_loop_silent by exact Hsilent. reflexivity.
Qed.

(** With no output sample louder than its input sample, [leastRatio] stays
    between 0 and 1. *)
Lemma GetMaxDbIncrease_loop_bounds (inb outb : list Q) (blockLen : nat) :
  (forall i, (i < blockLen)%nat -> Qabs (nth i outb 0) <= Qabs (nth i inb 0)) ->
  0 <= GetMaxDbIncrease_loop inb outb blockLen <= 1.
Proof.
  intros Hquiet.
  apply (GetMaxDbIncrease_loop_invariant (fun r => 0 <= r <= 1)); [split; discriminate|].
  intros leastRatio i Hi Hacc. unfold GetMaxDbIncrease_step.
  destruct (Qlt_bool (Qabs (nth i inb 0)) silenceFloor) eqn:Hfloor; [exact Hacc|].
  apply Qlt_bool_false_iff in Hfloor.
  assert (Hpos : 0 < Qabs (nth i inb 0)).
  { apply Qlt_le_trans with silenceFloor; [reflexivity | exact Hfloor]. }
  unfold std_max.
  destruct (Qlt_bool (Qabs (nth i outb 0) / Qabs (nth i inb 0)) leastRatio); [exact Hacc|].
  split.
  - apply Qle_shift_div_l; [exact Hpos|]. rewrite Qmult_0_l. apply Qabs_nonneg.
  - apply Qle_shift_div_r; [exact Hpos|]. rewrite Qmult_1_l. apply Hquiet, Hi.
Qed.


(** C10. What the output holds where the input is below the floor of 1e-6
    has no influence on [GetMaxDbIncrease]: two block pairs that, position by
    position, either both have an input below the floor or agree in input
    and output, give the same result; and a block whose input is below the
    floor everywhere gives minus infinity whatever its output holds. *)
Theorem GetMaxDbIncrease_silent_positions `{MathApprox}
    (in1 out1 in2 out2 : list Q) (blockLen : nat) :
  (blockLen <= length in1)%nat -> (blockLen <= length out1)%nat ->
  (blockLen <= length in2)%nat -> (blockLen <= length out2)%nat ->
  (forall i, (i < blockLen)%nat ->
     (Qabs (nth i in1 0) < silenceFloor /\ Qabs (nth i in2 0) < silenceFloor)
     \/ (nth i in1 0 = nth i in2 0 /\ nth i out1 0 = nth i out2 0)) ->
  GetMaxDbIncrease in1 out1 blockLen = GetMaxDbIncrease in2 out2 blockLen
  /\ ((forall i, (i < blockLen)%nat -> Qabs (nth i in1 0) < silenceFloor) ->
      forall loud : list Q, GetMaxDbIncrease in1 loud blockLen = NegInfinity).
Proof.
  intros _ _ _ _ Hsame. split.
  - unfold GetMaxDbIncrease, GetMaxDbIncrease_loop.
    rewrite (fold_left_ext_in (GetMaxDbIncrease_step in1 out1) (GetMaxDbIncrease_step in2 out2));
      [reflexivity|].
    intros acc i Hi. apply in_seq in Hi.
    unfold GetMaxDbIncrease_step.
    destruct (Hsame i ltac:(lia)) as [[Hs1 Hs2] | [Hin Hout]].
    + rewrite (proj2 (Qlt_bool_iff _ _) Hs1), (proj2 (Qlt_bool_iff _ _) Hs2). reflexivity.
    + rewrite Hin, Hout. reflexivity.
  - intros Hsilent loud. apply GetMaxDbIncrease_silent, Hsilent.
Qed.

(** * Further properties of the code *)

(** ** GetMaxDbIncrease: what the loop computes *)

Lemma GetMaxDbIncrease_loop_S (inb outb : list Q) (n : nat) :
  GetMaxDbIncrease_loop inb outb (S n)
  = GetMaxDbIncrease_step inb outb (GetMaxDbIncrease_loop inb outb n) n.
Proof.
  unfold GetMaxDbIncrease_loop. rewrite seq_S, fold_left_app. reflexivity.
Qed.

Lemma std_max_cases (a b : Q) :
  (std_max a b = a /\ b <= a) \/ (std_max a b = b /\ a < b).
Proof.
  unfold std_max. destruct (Qlt_bool a b) eqn:Hlt.
  - right. split; [reflexivity | apply Qlt_bool_iff, Hlt].
  - left. split; [reflexivity | apply Qlt_bool_false_iff, Hlt].
Qed.

Lemma ratio_nonneg (x y : Q) : 0 < Qabs y -> 0 <= Qabs x / Qabs y.
Proof.
  intros Hy. apply Qle_shift_div_l; [exact Hy|].
  rewrite Qmult_0_l. apply Qabs_nonneg.
Qed.

Lemma floor_positive (y : Q) : silenceFloor <= Qabs y -> 0 < Qabs y.
Proof. intros Hy. apply Qlt_le_trans with silenceFloor; [reflexivity | exact Hy]. Qed.

(** When the loop leaves, [leastRatio] is not negative, bounds the ratio at
    every position whose input reaches the floor, and is either the initial
    zero or the ratio at one of those positions. *)
Lemma GetMaxDbIncrease_loop_maximum (inb outb : list Q) (blockLen : nat) :
  0 <= GetMaxDbIncrease_loop inb outb blockLen
  /\ (forall j, (j < blockLen)%nat -> silenceFloor <= Qabs (nth j inb 0) ->
        Qabs (nth j outb 0) / Qabs (nth j inb 0) <= GetMaxDbIncrease_loop inb outb blockLen)
  /\ (GetMaxDbIncrease_loop inb outb blockLen = 0
      \/ exists i, (i < blockLen)%nat /\ silenceFloor <= Qabs (nth i inb 0)
           /\ GetMaxDbIncrease_loop inb outb blockLen
              = Qabs (nth i outb 0) / Qabs (nth i inb 0)).
Proof.
  induction blockLen as [|n (Hpos & Hbound & Hattained)].
  - split; [apply Qle_refl|]. split; [intros j Hj; lia | left; reflexivity].
  - rewrite GetMaxDbIncrease_loop_S. unfold GetMaxDbIncrease_step.
    destruct (Qlt_bool (Qabs (nth n inb 0)) silenceFloor) eqn:Hfloor.
    + apply Qlt_bool_iff in Hfloor.
      split; [exact Hpos|]. split.
      * intros j Hj Hq. assert (j = n \/ j < n)%nat as [->|Hlt] by lia.
        -- exfalso. apply (Qlt_irrefl silenceFloor).
           apply Qle_lt_trans with (Qabs (nth n inb 0)); assumption.
        -- apply Hbound; assumption.
      * destruct Hattained as [Hz | (i & Hi & Hq & Hr)]; [left; exact Hz|].
        right. exists i. split; [lia|]. split; assumption.
    + apply Qlt_bool_false_iff in Hfloor.
      pose proof (ratio_nonneg (nth n outb 0) (nth n inb 0) (floor_positive _ Hfloor)) as Hratio.
      destruct (std_max_cases (Qabs (nth n outb 0) / Qabs (nth n inb 0))
                  (GetMaxDbIncrease_loop inb outb n)) as [[-> Hle] | [-> Hlt]].
      * split; [exact Hratio|]. split.
        -- intros j Hj Hq. assert (j = n \/ j < n)%nat as [->|Hlt] by lia.
           ++ apply Qle_refl.
           ++ apply Qle_trans with (GetMaxDbIncrease_loop inb outb n);
                [apply Hbound; assumption | exact Hle].
        -- right. exists n. split; [lia|]. split; [exact Hfloor | reflexivity].
      * split; [exact Hpos|]. split.
        -- intros j Hj Hq. assert (j = n \/ j < n)%nat as [->|Hlt'] by lia.
           ++ apply Qlt_le_weak, Hlt.
           ++ apply Hbound; assumption.
        -- destruct Hattained as [Hz | (i & Hi & Hq & Hr)]; [left; exact Hz|].
           right. exists i. split; [lia|]. split; assumption.
Qed.

(** X1. [GetMaxDbIncrease] reports the greatest gain of the block: unless it
    returns minus infinity, its result is the decibel conversion of the ratio
    of output to input magnitude at one position whose input reaches the
    floor, and no such position has a greater ratio. The variable it keeps,
    [leastRatio], holds the greatest ratio. *)
Theorem GetMaxDbIncrease_greatest_ratio `{MathApprox} (inb outb : list Q) (blockLen : nat) :
  (blockLen <= length inb)%nat ->
  (blockLen <= length outb)%nat ->
  GetMaxDbIncrease inb outb blockLen = NegInfinity
  \/ exists i, (i < blockLen)%nat /\ silenceFloor <= Qabs (nth i inb 0)
       /\ (forall j, (j < blockLen)%nat -> silenceFloor <= Qabs (nth j inb 0) ->
             Qabs (nth j outb 0) / Qabs (nth j inb 0)
             <= Qabs (nth i outb 0) / Qabs (nth i inb 0))
       /\ GetMaxDbIncrease inb outb blockLen
          = Finite (log2ToDb * FastLog2 (Qabs (nth i outb 0) / Qabs (nth i inb 0))).
Proof.
  intros _ _. unfold GetMaxDbIncrease.
  destruct (GetMaxDbIncrease_loop_maximum inb outb blockLen) as (_ & Hbound & Hattained).
  destruct Hattained as [-> | (i & Hi & Hq & Hr)]; [left; reflexivity|].
  destruct (Qeq_bool (GetMaxDbIncrease_loop inb outb blockLen) 0); [left; reflexivity|].
  right. exists i. split; [exact Hi|]. split; [exact Hq|].
  rewrite <- Hr. split; [exact Hbound | reflexivity].
Qed.

Lemma Qabs_zero_iff (x : Q) : Qabs x == 0 <-> x == 0.
Proof.
  destruct x as [n d]. unfold Qabs, Qeq. simpl. lia.
Qed.

Lemma ratio_zero_iff (x y : Q) : 0 < Qabs y -> (Qabs x / Qabs y == 0 <-> x == 0).
Proof.
  intros Hy. split; intros Hx.
  - apply Qabs_zero_iff.
    assert (Hne : ~ Qabs y == 0) by (intros Hz; rewrite Hz in Hy; discriminate Hy).
    apply Qeq_trans with (Qabs y * (Qabs x / Qabs y));
      [symmetry; apply Qmult_div_r, Hne|].
    rewrite Hx. ring.
  - apply (proj2 (Qabs_zero_iff x)) in Hx. rewrite Hx. unfold Qdiv. ring.
Qed.


Lemma Qabs_opp_eq (x : Q) : Qabs (- x) = Qabs x.
Proof.
  destruct x as [n d]. unfold Qabs, Qopp. simpl. f_equal. apply Z.abs_opp.
Qed.

(** X3. [GetMaxDbIncrease] sees its samples through [std::abs] only: flipping
    the sign of any input or output samples, position by position, leaves
    the result as it was. *)
Theorem GetMaxDbIncrease_magnitudes_only `{MathApprox}
    (in1 out1 in2 out2 : list Q) (blockLen : nat) :
  (blockLen <= length in1)%nat -> (blockLen <= length out1)%nat ->
  (blockLen <= length in2)%nat -> (blockLen <= length out2)%nat ->
  (forall i, (i < blockLen)%nat ->
     (nth i in2 0 = nth i in1 0 \/ nth i in2 0 = - nth i in1 0)
     /\ (nth i out2 0 = nth i out1 0 \/ nth i out2 0 = - nth i out1 0)) ->
  GetMaxDbIncrease in2 out2 blockLen = GetMaxDbIncrease in1 out1 blockLen.
Proof.
  intros _ _ _ _ Hflip. unfold GetMaxDbIncrease, GetMaxDbIncrease_loop.
  rewrite (fold_left_ext_in (GetMaxDbIncrease_step in2 out2) (GetMaxDbIncrease_step in1 out1));
    [reflexivity|].
  intros acc i Hi. apply in_seq in Hi. unfold GetMaxDbIncrease_step.
  destruct (Hflip i ltac:(lia)) as [[-> | ->] [-> | ->]];
    rewrite ?Qabs_opp_eq; reflexivity.
Qed.

(** ** GetLatency and the sample rate *)


(** ** Adding realtime contexts *)

(** The contexts that were there before an [emplace_back]: as they are when
    the vector has room, move-constructed when it is full. *)
Lemma RealtimeAddProcessor_Returns `{SettingsVariants} `{CompressorProcessorClass} `{VectorGrowth}
    (w : World) (settings : EffectSettings) (d : DynamicRangeProcessorSettings)
    (pOutputs : EffectOutputs_ptr) (numChannels : Z) (sampleRate : Q) :
  GetDynamicRangeProcessorSettings settings = Returns d ->
  RealtimeAddProcessor settings pOutputs numChannels sampleRate w
  = Returns (true,
             {| this := with_mSlaves
                          ((if bool_decide (length (mSlaves (this w)) < mSlaves_capacity (this w))%nat
                            then mSlaves (this w) else map move_construct (mSlaves (this w)))
                           ++ [context_at
                                 (Init sampleRate numChannels (GetBlockSize (this w))
                                    (ApplySettingsIfNeeded d make_CompressorProcessor))
                                 0 (dynamic_cast_DynamicRangeProcessorOutputs pOutputs)])
                          (if bool_decide (length (mSlaves (this w)) < mSlaves_capacity (this w))%nat
                           then mSlaves_capacity (this w) else grow (mSlaves_capacity (this w)))
                          (this w);
                outputs := outputs w;
                published := published w |}).
Proof.
  intros Hd. unfold RealtimeAddProcessor, emplace_back.
  destruct (bool_decide (length (mSlaves (this w)) < mSlaves_capacity (this w))%nat);
    rewrite last_snoc; unfold InstanceInit; rewrite Hd; simpl;
    rewrite length_app; simpl;
    match goal with
    | |- context [<[pred (length ?l + 1) := ?y]> (?l ++ [?x])] =>
        replace (pred (length l + 1)) with (length l + 0)%nat by lia;
        rewrite (insert_app_r l [x] 0 y)
    end; reflexivity.
Qed.

Lemma RealtimeAddProcessor_effect `{SettingsVariants} `{CompressorProcessorClass} `{VectorGrowth}
    (w : World) (settings : EffectSettings) (d : DynamicRangeProcessorSettings)
    (pOutputs : EffectOutputs_ptr) (numChannels : Z) (sampleRate : Q) :
  GetDynamicRangeProcessorSettings settings = Returns d ->
  exists w',
    RealtimeAddProcessor settings pOutputs numChannels sampleRate w = Returns (true, w')
    /\ length (mSlaves (this w')) = S (length (mSlaves (this w)))
    /\ mSlaves (this w') !! length (mSlaves (this w))
       = Some (context_at
                 (Init sampleRate numChannels (GetBlockSize (this w))
                    (ApplySettingsIfNeeded d make_CompressorProcessor))
                 0 (dynamic_cast_DynamicRangeProcessorOutputs pOutputs))
    /\ (forall g, (g < length (mSlaves (this w)))%nat ->
          mCompressor <$> (mSlaves (this w') !! g) = mCompressor <$> (mSlaves (this w) !! g))
    /\ mCompressor (this w') = mCompressor (this w)
    /\ GetBlockSize (this w') = GetBlockSize (this w)
    /\ GetSampleRate w' = GetSampleRate w
    /\ outputs w' = outputs w
    /\ published w' = published w.
Proof.
  intros Hd. rewrite (RealtimeAddProcessor_Returns w settings d) by exact Hd.
  eexists. split; [reflexivity|]. simpl.
  destruct (bool_decide (length (mSlaves (this w)) < mSlaves_capacity (this w))%nat).
  - split; [rewrite length_app; simpl; lia|].
    split; [rewrite lookup_app_r by lia; rewrite Nat.sub_diag; reflexivity|].
    split; [intros g Hg; rewrite lookup_app_l by exact Hg; reflexivity|].
    repeat split.
  - split; [rewrite length_app, length_map; simpl; lia|].
    split; [rewrite lookup_app_r by (rewrite length_map; lia);
            rewrite length_map, Nat.sub_diag; reflexivity|].
    split.
    + intros g Hg. rewrite lookup_app_l by (rewrite length_map; exact Hg).
      rewrite list_lookup_fmap.
      destruct (mSlaves (this w) !! g); reflexivity.
    + repeat split.
Qed.

(** X8. With settings of a recognised variant, [RealtimeAddProcessor] adds
    one context behind the existing ones, so a group keeps the index it was
    added at. The new context starts at sample zero, reports to the telemetry
    object the [dynamic_cast] yields, and owns a new core with the settings
    applied and initialised for the given rate, channel count and the block
    size of the instance. The cores of the existing contexts stay where they
    are under every growth policy of the vector; the offline core, the
    telemetry objects and the notifications are not touched. *)
Theorem RealtimeAddProcessor_appends `{SettingsVariants} `{CompressorProcessorClass} `{VectorGrowth}
    (w : World) (settings : EffectSettings) (d : DynamicRangeProcessorSettings)
    (pOutputs : EffectOutputs_ptr) (numChannels : Z) (sampleRate : Q) :
  GetDynamicRangeProcessorSettings settings = Returns d ->
  exists w',
    RealtimeAddProcessor settings pOutputs numChannels sampleRate w = Returns (true, w')
    /\ length (mSlaves (this w')) = S (length (mSlaves (this w)))
    /\ mSlaves (this w') !! length (mSlaves (this w))
       = Some (context_at
                 (Init sampleRate numChannels (GetBlockSize (this w))
                    (ApplySettingsIfNeeded d make_CompressorProcessor))
                 0 (dynamic_cast_DynamicRangeProcessorOutputs pOutputs))
    /\ (forall g, (g < length (mSlaves (this w)))%nat ->
          mCompressor <$> (mSlaves (this w') !! g) = mCompressor <$> (mSlaves (this w) !! g))
    /\ mCompressor (this w') = mCompressor (this w)
    /\ GetBlockSize (this w') = GetBlockSize (this w)
    /\ GetSampleRate w' = GetSampleRate w
    /\ outputs w' = outputs w
    /\ published w' = published w.
Proof. apply RealtimeAddProcessor_effect. Qed.

(** X9. What [RealtimeAddProcessor] does to the contexts that exist depends
    on the room in [mSlaves]. With spare capacity they are left as they are.
    When the vector is full they are move-constructed into the new storage,
    and the move constructor hands over the core and nothing else: each one
    comes out with its core, a counter of zero and no telemetry object. *)
Theorem RealtimeAddProcessor_existing_contexts
    `{SettingsVariants} `{CompressorProcessorClass} `{VectorGrowth}
    (w : World) (settings : EffectSettings) (d : DynamicRangeProcessorSettings)
    (pOutputs : EffectOutputs_ptr) (numChannels : Z) (sampleRate : Q) :
  GetDynamicRangeProcessorSettings settings = Returns d ->
  exists w',
    RealtimeAddProcessor settings pOutputs numChannels sampleRate w = Returns (true, w')
    /\ ((length (mSlaves (this w)) < mSlaves_capacity (this w))%nat ->
        forall g slave, mSlaves (this w) !! g = Some slave ->
                        mSlaves (this w') !! g = Some slave)
    /\ ((mSlaves_capacity (this w) <= length (mSlaves (this w)))%nat ->
        forall g slave, mSlaves (this w) !! g = Some slave ->
          exists slave',
            mSlaves (this w') !! g = Some slave'
            /\ mCompressor slave' = mCompressor slave
            /\ mSampleCounter slave' = 0%Z
            /\ mpOutputs slave' = None).
Proof.
  intros Hd. rewrite (RealtimeAddProcessor_Returns w settings d) by exact Hd.
  eexists. split; [reflexivity|]. simpl. split.
  - intros Hroom g slave Hslave.
    rewrite bool_decide_eq_true_2 by exact Hroom.
    rewrite lookup_app_l by (eapply lookup_lt_Some; exact Hslave). exact Hslave.
  - intros Hfull g slave Hslave.
    rewrite bool_decide_eq_false_2 by lia.
    exists (move_construct slave).
    rewrite lookup_app_l by (rewrite length_map; eapply lookup_lt_Some; exact Hslave).
    rewrite list_lookup_fmap, Hslave. repeat split.
Qed.

Lemma add_processors_effect `{SettingsVariants} `{CompressorProcessorClass} `{VectorGrowth}
    (adds : list AddProcessorArgs) (w : World) :
  Forall (fun a => GetDynamicRangeProcessorSettings (add_settings a) <> ContractViolation) adds ->
  exists w',
    add_processors adds w = Returns w'
    /\ length (mSlaves (this w')) = (length (mSlaves (this w)) + length adds)%nat
    /\ (forall g, (g < length (mSlaves (this w)))%nat ->
          mCompressor <$> (mSlaves (this w') !! g) = mCompressor <$> (mSlaves (this w) !! g))
    /\ (forall k a d, adds !! k = Some a ->
          GetDynamicRangeProcessorSettings (add_settings a) = Returns d ->
          mCompressor <$> (mSlaves (this w') !! (length (mSlaves (this w)) + k)%nat)
          = Some (Init (add_sampleRate a) (add_numChannels a) (GetBlockSize (this w))
                    (ApplySettingsIfNeeded d make_CompressorProcessor)))
    /\ mCompressor (this w') = mCompressor (this w)
    /\ GetBlockSize (this w') = GetBlockSize (this w)
    /\ GetSampleRate w' = GetSampleRate w
    /\ outputs w' = outputs w
    /\ published w' = published w.
Proof.
  revert w. induction adds as [|a adds IH]; intros w Hok.
  - exists w. split; [reflexivity|]. split; [simpl; lia|].
    split; [reflexivity|]. split; [intros k a d Hk; discriminate Hk|].
    repeat split.
  - apply Forall_cons in Hok as [Ha Hok].
    destruct (GetDynamicRangeProcessorSettings_Returns _ Ha) as [da Hda].
    destruct (RealtimeAddProcessor_effect w (add_settings a) da (add_pOutputs a)
                (add_numChannels a) (add_sampleRate a) Hda)
      as (w1 & Hadd & Hlen1 & Hnew1 & Hold1 & Hcore1 & Hbs1 & Hsr1 & Hout1 & Hpub1).
    destruct (IH w1 Hok)
      as (w' & Hadds & Hlen & Hold & Hnew & Hcore & Hbs & Hsr & Hout & Hpub).
    exists w'. simpl. rewrite Hadd. simpl.
    split; [exact Hadds|]. split; [simpl; lia|].
    split; [intros g Hg; rewrite Hold by lia; apply Hold1, Hg|].
    split.
    + intros k b d Hk Hd. destruct k as [|k]; simpl in Hk.
      * injection Hk as <-. rewrite Hda in Hd. injection Hd as <-.
        rewrite Nat.add_0_r, Hold by lia. rewrite Hnew1. reflexivity.
      * rewrite <- Hbs1.
        replace (length (mSlaves (this w)) + S k)%nat
          with (length (mSlaves (this w1)) + k)%nat by lia.
        apply Hnew; assumption.
    + split; [congruence|]. split; [congruence|]. split; [congruence|].
      split; congruence.
Qed.

(** X10. [RealtimeInitialize] fixes the block size at 512, and every context
    added after it gets a core initialised with that block size, at the
    sample rate and channel count of its own [RealtimeAddProcessor] call and
    with the settings of that call applied. Later additions do not disturb
    it: the core of the k-th addition sits at index k whatever the growth
    policy of the vector. *)
Theorem contexts_after_RealtimeInitialize
    `{SettingsVariants} `{CompressorProcessorClass} `{VectorGrowth}
    (w0 : World) (initSettings : EffectSettings) (sampleRate : Q)
    (adds : list AddProcessorArgs) :
  Forall (fun a => GetDynamicRangeProcessorSettings (add_settings a) <> ContractViolation) adds ->
  exists w1,
    add_processors adds (RealtimeInitialize initSettings sampleRate w0).2 = Returns w1
    /\ length (mSlaves (this w1)) = length adds
    /\ GetBlockSize (this w1) = 512%N
    /\ forall k a d, adds !! k = Some a ->
         GetDynamicRangeProcessorSettings (add_settings a) = Returns d ->
         mCompressor <$> (mSlaves (this w1) !! k)
         = Some (Init (add_sampleRate a) (add_numChannels a) 512
                   (ApplySettingsIfNeeded d make_CompressorProcessor)).
Proof.
  intros Hok.
  destruct (add_processors_effect adds (RealtimeInitialize initSettings sampleRate w0).2 Hok)
    as (w1 & Hadds & Hlen & _ & Hnew & _ & Hbs & _).
  exists w1. split; [exact Hadds|]. split; [exact Hlen|]. split; [exact Hbs|].
  intros k a d Hk Hd. exact (Hnew k a d Hk Hd).
Qed.

(** X11. A context added with a null pointer, or with outputs of another
    class, has no telemetry object: the [dynamic_cast] fails, and a block
    processed for the new group is processed in full, advances its counter
    and leaves every telemetry object as it was. *)
Theorem context_without_telemetry `{SettingsVariants} `{CompressorProcessorClass} `{VectorGrowth}
    (w : World) (settings : EffectSettings) (d : DynamicRangeProcessorSettings)
    (pOutputs : EffectOutputs_ptr) (numChannels : Z) (sampleRate : Q)
    (settings' : EffectSettings) (d' : DynamicRangeProcessorSettings)
    (inbuf outbuf : AudioBlock) (numSamples : N) :
  GetDynamicRangeProcessorSettings settings = Returns d ->
  GetDynamicRangeProcessorSettings settings' = Returns d' ->
  dynamic_cast_DynamicRangeProcessorOutputs pOutputs = None ->
  exists w1 outbuf' w2,
    RealtimeAddProcessor settings pOutputs numChannels sampleRate w = Returns (true, w1)
    /\ RealtimeProcess (N.of_nat (length (mSlaves (this w)))) settings' inbuf outbuf numSamples w1
       = Returns (numSamples, outbuf', w2)
    /\ outputs w2 = outputs w
    /\ counter_of (N.of_nat (length (mSlaves (this w)))) w2
       = Some (wrap_int64 (Z.of_N numSamples)).
Proof.
  intros Hd Hd' Hcast.
  destruct (RealtimeAddProcessor_effect w settings d pOutputs numChannels sampleRate Hd)
    as (w1 & Hadd & Hlen & Hnew & _ & _ & _ & _ & Hout & _).
  rewrite Hcast in Hnew.
  pose proof (RealtimeProcess_in_range w1 (N.of_nat (length (mSlaves (this w)))) settings'
                inbuf outbuf numSamples
                (context_at
                   (Init sampleRate numChannels (GetBlockSize (this w))
                      (ApplySettingsIfNeeded d make_CompressorProcessor))
                   0 None) d') as Hrun.
  rewrite Nat2N.id in Hrun. specialize (Hrun Hnew Hd').
  eexists w1, _, _. split; [exact Hadd|]. split; [exact Hrun|]. simpl.
  split; [exact Hout|].
  unfold counter_of. simpl. rewrite Nat2N.id.
  rewrite list_lookup_insert_eq by lia. reflexivity.
Qed.

(** ** What the realtime calls change *)

Lemma realtime_frame_refl `{CompressorProcessorClass} (w : World) : realtime_frame w w.
Proof. repeat split. Qed.

Lemma realtime_frame_trans `{CompressorProcessorClass} (w1 w2 w3 : World) :
  realtime_frame w1 w2 -> realtime_frame w2 w3 -> realtime_frame w1 w3.
Proof.
  intros (Ha & Hb & Hc & Hd & He & Hf & Hg) (Ha' & Hb' & Hc' & Hd' & He' & Hf' & Hg').
  repeat split; try congruence; intros j; rewrite Hg'; apply Hg.
Qed.

Lemma advance_mpOutputs `{CompressorProcessorClass}
    (core : CompressorProcessor) (n : N) (slave : CompressorInstance) :
  mpOutputs (advance core n slave) = mpOutputs slave.
Proof. reflexivity. Qed.

(** Replacing the context of one group by a context with the same telemetry
    pointer keeps the frame and every other context. *)
Lemma replace_context_frame `{CompressorProcessorClass}
    (w : World) (g : nat) (slave slave' : CompressorInstance)
    (outs : gmap addr (list StatisticsPacket)) :
  mSlaves (this w) !! g = Some slave ->
  mpOutputs slave' = mpOutputs slave ->
  realtime_frame w
    {| this := with_mSlaves (<[g := slave']> (mSlaves (this w))) (mSlaves_capacity (this w)) (this w);
       outputs := outs; published := published w |}
  /\ forall j, j <> g ->
       <[g := slave']> (mSlaves (this w)) !! j = mSlaves (this w) !! j.
Proof.
  intros Hslave Hp. split.
  - repeat split; simpl; try reflexivity; [apply length_insert|].
    intros j. destruct (decide (j = g)) as [->|Hne].
    + rewrite list_lookup_insert_eq by (eapply lookup_lt_Some; exact Hslave).
      rewrite Hslave. simpl. rewrite Hp. reflexivity.
    + rewrite list_lookup_insert_ne by congruence. reflexivity.
  - intros j Hne. apply list_lookup_insert_ne. congruence.
Qed.

Lemma do_call_frame `{SettingsVariants} `{CompressorProcessorClass}
    (c : RealtimeCall) (w : World) :
  call_settings_ok c ->
  exists w',
    do_call c w = Returns w'
    /\ realtime_frame w w'
    /\ (forall j, call_group c <> N.of_nat j ->
          mSlaves (this w') !! j = mSlaves (this w) !! j)
    /\ (forall p, exists appended,
          outputs w' !!! p = outputs w !!! p ++ appended
          /\ (length appended <= process_calls [c])%nat).
Proof.
  intros Hok. destruct c as [g settings inbuf outbuf n | g settings inbuf n]; simpl in *.
  - apply GetDynamicRangeProcessorSettings_Returns in Hok as [d Hd].
    destruct (mSlaves (this w) !! N.to_nat g) as [slave|] eqn:Hslave.
    + rewrite (RealtimeProcess_in_range w g settings inbuf outbuf n slave d) by assumption.
      simpl. eexists. split; [reflexivity|].
      destruct (replace_context_frame w (N.to_nat g) slave
                  (advance (core_after d slave inbuf outbuf n) n slave)
                  (match mpOutputs slave with
                   | Some p => emit p (newPacket_of slave (core_after d slave inbuf outbuf n))
                                 (outputs w)
                   | None => outputs w
                   end) Hslave eq_refl) as [Hframe Hothers].
      split; [exact Hframe|]. split.
      * intros j Hj. simpl. apply Hothers. intros ->. apply Hj. symmetry. apply N2Nat.id.
      * intros p. simpl. destruct (mpOutputs slave) as [q|].
        -- destruct (decide (q = p)) as [->|Hne].
           ++ eexists. rewrite emit_lookup_total. split; [reflexivity | simpl; lia].
           ++ exists []. rewrite emit_lookup_total_ne by exact Hne.
              rewrite app_nil_r. split; [reflexivity | simpl; lia].
        -- exists []. rewrite app_nil_r. split; [reflexivity | simpl; lia].
    + apply lookup_ge_None in Hslave.
      rewrite RealtimeProcess_no_context by lia.
      simpl. exists w. split; [reflexivity|]. split; [apply realtime_frame_refl|].
      split; [reflexivity|].
      intros p. exists []. rewrite app_nil_r. split; [reflexivity | simpl; lia].
  - eexists. split; [reflexivity|]. unfold RealtimePassThrough.
    destruct (bool_decide (g < N.of_nat (length (mSlaves (this w))))%N);
      [destruct (mSlaves (this w) !! N.to_nat g) as [slave|] eqn:Hslave|].
    + destruct (replace_context_frame w (N.to_nat g) slave
                  (advance (mCompressor slave) n slave) (outputs w) Hslave eq_refl)
        as [Hframe Hothers].
      split; [exact Hframe|]. split.
      * intros j Hj. simpl. apply Hothers. intros ->. apply Hj. symmetry. apply N2Nat.id.
      * intros p. exists []. rewrite app_nil_r. split; [reflexivity | simpl; lia].
    + split; [apply realtime_frame_refl|]. split; [reflexivity|].
      intros p. exists []. rewrite app_nil_r. split; [reflexivity | simpl; lia].
    + split; [apply realtime_frame_refl|]. split; [reflexivity|].
      intros p. exists []. rewrite app_nil_r. split; [reflexivity | simpl; lia].
Qed.

Lemma do_calls_frame `{SettingsVariants} `{CompressorProcessorClass}
    (calls : list RealtimeCall) (w : World) :
  Forall call_settings_ok calls ->
  exists w',
    do_calls calls w = Returns w'
    /\ realtime_frame w w'
    /\ (forall j, Forall (fun c => call_group c <> N.of_nat j) calls ->
          mSlaves (this w') !! j = mSlaves (this w) !! j)
    /\ (forall p, exists appended,
          outputs w' !!! p = outputs w !!! p ++ appended
          /\ (length appended <= process_calls calls)%nat).
Proof.
  revert w. induction calls as [|c calls IH]; intros w Hok.
  - exists w. split; [reflexivity|]. split; [apply realtime_frame_refl|].
    split; [reflexivity|].
    intros p. exists []. rewrite app_nil_r. split; [reflexivity | simpl; lia].
  - apply Forall_cons in Hok as [Hc Hok].
    destruct (do_call_frame c w Hc) as (w1 & Hcall & Hframe1 & Hothers1 & Happ1).
    destruct (IH w1 Hok) as (w' & Hcalls & Hframe & Hothers & Happ).
    exists w'. simpl. rewrite Hcall. simpl.
    split; [exact Hcalls|].
    split; [eapply realtime_frame_trans; eassumption|]. split.
    + intros j Hj. apply Forall_cons in Hj as [Hjc Hj].
      rewrite Hothers by exact Hj. apply Hothers1, Hjc.
    + intros p. destruct (Happ1 p) as (app1 & Heq1 & Hlen1).
      destruct (Happ p) as (app2 & Heq2 & Hlen2).
      exists (app1 ++ app2). rewrite Heq2, Heq1, app_assoc.
      split; [reflexivity|].
      rewrite length_app. destruct c; simpl in *; lia.
Qed.

(** X12. A realtime block for one group stays within that group: the call
    replaces the core and the counter of the addressed context and keeps its
    telemetry pointer; every other context, the offline core, the sample
    rate, the block size, the notifications and every telemetry object other
    than the one the context points to are what they were. *)
Theorem RealtimeProcess_isolation `{SettingsVariants} `{CompressorProcessorClass}
    (w : World) (group : N) (settings : EffectSettings) (d : DynamicRangeProcessorSettings)
    (inbuf outbuf : AudioBlock) (numSamples : N) (slave : CompressorInstance) :
  mSlaves (this w) !! N.to_nat group = Some slave ->
  GetDynamicRangeProcessorSettings settings = Returns d ->
  exists outbuf' w' slave',
    RealtimeProcess group settings inbuf outbuf numSamples w = Returns (numSamples, outbuf', w')
    /\ realtime_frame w w'
    /\ mSlaves (this w') !! N.to_nat group = Some slave'
    /\ mpOutputs slave' = mpOutputs slave
    /\ mCompressor slave' = core_after d slave inbuf outbuf numSamples
    /\ (forall j, j <> N.to_nat group -> mSlaves (this w') !! j = mSlaves (this w) !! j)
    /\ (forall q, mpOutputs slave <> Some q -> outputs w' !!! q = outputs w !!! q).
Proof.
  intros Hslave Hd.
  rewrite (RealtimeProcess_in_range w group settings inbuf outbuf numSamples slave d)
    by assumption.
  eexists _, _, _. split; [reflexivity|].
  destruct (replace_context_frame w (N.to_nat group) slave
              (advance (core_after d slave inbuf outbuf numSamples) numSamples slave)
              (match mpOutputs slave with
               | Some p => emit p (newPacket_of slave (core_after d slave inbuf outbuf numSamples))
                             (outputs w)
               | None => outputs w
               end) Hslave eq_refl) as [Hframe Hothers].
  split; [exact Hframe|]. simpl.
  split; [apply list_lookup_insert_eq; eapply lookup_lt_Some; exact Hslave|].
  split; [reflexivity|]. split; [reflexivity|].
  split; [exact Hothers|].
  intros q Hq. destruct (mpOutputs slave) as [p|]; [|reflexivity].
  apply emit_lookup_total_ne. congruence.
Qed.

Lemma RealtimePassThrough_frame_aux `{SettingsVariants} `{CompressorProcessorClass}
    (w : World) (group : N) (settings : EffectSettings) (inbuf : AudioBlock) (numSamples : N) :
  realtime_frame w (RealtimePassThrough group settings inbuf numSamples w)
  /\ outputs (RealtimePassThrough group settings inbuf numSamples w) = outputs w
  /\ (forall j, mCompressor <$> (mSlaves (this (RealtimePassThrough group settings inbuf numSamples w)) !! j)
                = mCompressor <$> (mSlaves (this w) !! j))
  /\ (forall j, j <> N.to_nat group ->
        mSlaves (this (RealtimePassThrough group settings inbuf numSamples w)) !! j
        = mSlaves (this w) !! j)
  /\ counter_of group (RealtimePassThrough group settings inbuf numSamples w)
     = (fun c => wrap_int64 (c + Z.of_N numSamples)) <$> counter_of group w
  /\ ((N.of_nat (length (mSlaves (this w))) <= group)%N ->
      RealtimePassThrough group settings inbuf numSamples w = w).
Proof.
  unfold RealtimePassThrough, counter_of.
  case_bool_decide as Hrange.
  - destruct (mSlaves (this w) !! N.to_nat group) as [slave|] eqn:Hslave.
    + destruct (replace_context_frame w (N.to_nat group) slave
                  (advance (mCompressor slave) numSamples slave) (outputs w) Hslave eq_refl)
        as [Hframe Hothers].
      split; [exact Hframe|]. simpl. split; [reflexivity|]. split.
      * intros j. destruct (decide (j = N.to_nat group)) as [->|Hne].
        -- rewrite list_lookup_insert_eq by (eapply lookup_lt_Some; exact Hslave).
           rewrite Hslave. reflexivity.
        -- rewrite Hothers by exact Hne. reflexivity.
      * split; [exact Hothers|]. split; [|lia].
        rewrite list_lookup_insert_eq by (eapply lookup_lt_Some; exact Hslave).
        reflexivity.
    + apply lookup_ge_None in Hslave. lia.
  - split; [apply realtime_frame_refl|]. split; [reflexivity|].
    split; [reflexivity|]. split; [reflexivity|].
    split; [|reflexivity].
    rewrite (proj2 (lookup_ge_None _ _)) by lia. reflexivity.
Qed.

(** X13. [RealtimePassThrough] changes one number. Whatever its arguments,
    and without looking at the settings, it leaves every core, every
    telemetry pointer and telemetry object, the notifications and every
    context but the addressed one as they were; the counter of the addressed
    context moves on by [numSamples] in 64-bit arithmetic, and for a group
    without a context the world is returned as it came. *)
Theorem RealtimePassThrough_frame `{SettingsVariants} `{CompressorProcessorClass}
    (w : World) (group : N) (settings : EffectSettings) (inbuf : AudioBlock) (numSamples : N) :
  realtime_frame w (RealtimePassThrough group settings inbuf numSamples w)
  /\ outputs (RealtimePassThrough group settings inbuf numSamples w) = outputs w
  /\ (forall j, mCompressor <$> (mSlaves (this (RealtimePassThrough group settings inbuf numSamples w)) !! j)
                = mCompressor <$> (mSlaves (this w) !! j))
  /\ (forall j, j <> N.to_nat group ->
        mSlaves (this (RealtimePassThrough group settings inbuf numSamples w)) !! j
        = mSlaves (this w) !! j)
  /\ counter_of group (RealtimePassThrough group settings inbuf numSamples w)
     = (fun c => wrap_int64 (c + Z.of_N numSamples)) <$> counter_of group w
  /\ ((N.of_nat (length (mSlaves (this w))) <= group)%N ->
      RealtimePassThrough group settings inbuf numSamples w = w).
Proof. apply RealtimePassThrough_frame_aux. Qed.

(** X14. The index of a packet counts every sample that passed for its
    group, processed or bypassed. Take a context with a telemetry object and
    let any sequence of realtime calls go by, for this group and for others;
    the packet of the next block processed for the group then carries the
    counter the context started with plus the samples those calls passed for
    the group, as long as that sum fits the counter. *)
Theorem packet_index_counts_samples `{SettingsVariants} `{CompressorProcessorClass}
    (w : World) (group : N) (slave : CompressorInstance) (p : addr)
    (calls : list RealtimeCall)
    (settings : EffectSettings) (d : DynamicRangeProcessorSettings)
    (inbuf outbuf : AudioBlock) (numSamples : N) :
  mSlaves (this w) !! N.to_nat group = Some slave ->
  mpOutputs slave = Some p ->
  Forall call_settings_ok calls ->
  GetDynamicRangeProcessorSettings settings = Returns d ->
  (0 <= mSampleCounter slave)%Z ->
  (mSampleCounter slave + samples_passed group calls < 2 ^ 63)%Z ->
  exists w1 outbuf' w2 newPacket,
    do_calls calls w = Returns w1
    /\ RealtimeProcess group settings inbuf outbuf numSamples w1
       = Returns (numSamples, outbuf', w2)
    /\ outputs w2 !!! p = outputs w1 !!! p ++ [newPacket]
    /\ indexOfFirstSample newPacket
       = (mSampleCounter slave + samples_passed group calls)%Z.
Proof.
  intros Hslave Hp Hok Hd Hpos Hfit.
  destruct (do_calls_counter calls w Hok) as (w1 & Hrun & _ & Hctr).
  destruct (do_calls_frame calls w Hok) as (w1' & Hrun' & Hframe & _).
  rewrite Hrun in Hrun'. injection Hrun' as <-.
  destruct Hframe as (_ & _ & _ & _ & _ & _ & Hptr).
  specialize (Hctr group). specialize (Hptr (N.to_nat group)).
  unfold counter_of in Hctr. rewrite Hslave in Hctr, Hptr. simpl in Hctr, Hptr.
  pose proof (samples_passed_nonneg group calls) as Hsum.
  specialize (Hctr ltac:(apply wrap_int64_small; lia)).
  rewrite wrap_int64_small in Hctr by lia.
  destruct (mSlaves (this w1) !! N.to_nat group) as [slave1|] eqn:Hslave1;
    [|discriminate Hctr].
  simpl in Hctr, Hptr. injection Hctr as Hctr. injection Hptr as Hptr.
  pose proof (RealtimeProcess_in_range w1 group settings inbuf outbuf numSamples slave1 d
                Hslave1 Hd) as Hblock.
  rewrite Hptr, Hp in Hblock.
  eexists w1, _, _, _. split; [exact Hrun|]. split; [exact Hblock|]. simpl.
  split; [apply emit_lookup_total|]. exact Hctr.
Qed.

(** X15. A pause does not reset positions. [RealtimeResume] re-primes the
    core of every context and leaves counters and telemetry pointers alone,
    so the first block processed after it runs through the re-primed core
    and its packet carries the counter the context had before the pause. The
    offline core is not re-primed. *)
Theorem RealtimeResume_then_process `{SettingsVariants} `{CompressorProcessorClass}
    (w : World) (group : N) (slave : CompressorInstance) (p : addr)
    (settings : EffectSettings) (d : DynamicRangeProcessorSettings)
    (inbuf outbuf : AudioBlock) (numSamples : N) :
  mSlaves (this w) !! N.to_nat group = Some slave ->
  mpOutputs slave = Some p ->
  GetDynamicRangeProcessorSettings settings = Returns d ->
  exists outbuf' w2 slave2 newPacket,
    RealtimeProcess group settings inbuf outbuf numSamples (RealtimeResume w).2
    = Returns (numSamples, outbuf', w2)
    /\ mSlaves (this w2) !! N.to_nat group = Some slave2
    /\ mCompressor slave2
       = (Process inbuf outbuf numSamples
            (ApplySettingsIfNeeded d (Reinit (mCompressor slave)))).1
    /\ outputs w2 !!! p = outputs w !!! p ++ [newPacket]
    /\ indexOfFirstSample newPacket = mSampleCounter slave
    /\ mCompressor (this w2) = mCompressor (this w)
    /\ published w2 = published w ++ [RealtimeResumed].
Proof.
  intros Hslave Hp Hd.
  set (resumed := {| mCompressor := Reinit (mCompressor slave); mSlaves := mSlaves slave;
                     mSlaves_capacity := mSlaves_capacity slave;
                     mSampleCounter := mSampleCounter slave;
                     mSampleRate := mSampleRate slave;
                     mpOutputs := mpOutputs slave; mBlockSize := mBlockSize slave |}).
  assert (Hresumed : mSlaves (this (RealtimeResume w).2) !! N.to_nat group = Some resumed).
  { simpl. rewrite list_lookup_fmap, Hslave. reflexivity. }
  rewrite (RealtimeProcess_in_range _ group settings inbuf outbuf numSamples resumed d
             Hresumed Hd).
  subst resumed. simpl. rewrite Hp.
  eexists _, _, _, _. split; [reflexivity|]. simpl.
  split; [apply list_lookup_insert_eq; rewrite length_map;
          eapply lookup_lt_Some; exact Hslave|].
  split; [reflexivity|]. split; [apply emit_lookup_total|].
  repeat split.
Qed.

(** X16. The offline path and the realtime path do not meet. Realtime calls
    never touch the offline core, so an offline block processed after any
    sequence of them comes out as it would have without them; and
    [ProcessBlock] changes the offline core only, every realtime context
    staying as it is. *)
Theorem offline_and_realtime_paths `{SettingsVariants} `{CompressorProcessorClass}
    (w : World) (calls : list RealtimeCall)
    (settings : EffectSettings) (d : DynamicRangeProcessorSettings)
    (inBlock outBlock : AudioBlock) (blockLen : N) :
  Forall call_settings_ok calls ->
  GetDynamicRangeProcessorSettings settings = Returns d ->
  exists w1 outBlock' wa wb,
    do_calls calls w = Returns w1
    /\ ProcessBlock settings inBlock outBlock blockLen w = Returns (blockLen, outBlock', wa)
    /\ ProcessBlock settings inBlock outBlock blockLen w1 = Returns (blockLen, outBlock', wb)
    /\ mCompressor (this wa) = mCompressor (this wb)
    /\ mSlaves (this wa) = mSlaves (this w)
    /\ mSlaves (this wb) = mSlaves (this w1)
    /\ published wb = published w.
Proof.
  intros Hok Hd.
  destruct (do_calls_frame calls w Hok) as (w1 & Hrun & Hframe & _).
  destruct Hframe as (Hcore & _ & _ & _ & Hpub & _).
  exists w1. unfold ProcessBlock.
  rewrite !(InstanceProcess_Returns settings d) by exact Hd.
  rewrite Hcore. simpl.
  eexists _, _, _. split; [exact Hrun|].
  split; [reflexivity|]. split; [reflexivity|]. simpl.
  split; [reflexivity|]. split; [reflexivity|]. split; [reflexivity | exact Hpub].
Qed.

Lemma do_call_unreferenced `{SettingsVariants} `{CompressorProcessorClass}
    (c : RealtimeCall) (w w' : World) (p : addr) :
  (forall j slave, mSlaves (this w) !! j = Some slave -> mpOutputs slave <> Some p) ->
  do_call c w = Returns w' ->
  outputs w' !!! p = outputs w !!! p.
Proof.
  intros Hfree. destruct c as [g settings inbuf outbuf n | g settings inbuf n]; simpl.
  - unfold RealtimeProcess.
    destruct (bool_decide (N.of_nat (length (mSlaves (this w))) ≤ g)%N);
      [simpl; intros [= <-]; reflexivity|].
    destruct (mSlaves (this w) !! N.to_nat g) as [slave|] eqn:Hslave; [|discriminate].
    unfold InstanceProcess.
    destruct (GetDynamicRangeProcessorSettings settings) as [d|]; simpl; [|discriminate].
    destruct (Process inbuf outbuf n (ApplySettingsIfNeeded d (mCompressor slave)))
      as [core outbuf'].
    simpl. intros [= <-]. simpl.
    pose proof (Hfree _ _ Hslave) as Hne.
    destruct (mpOutputs slave) as [q|]; [|reflexivity].
    apply emit_lookup_total_ne. congruence.
  - intros [= <-].
    rewrite (proj1 (proj2 (RealtimePassThrough_frame_aux w g settings inbuf n))).
    reflexivity.
Qed.

Lemma do_calls_unreferenced `{SettingsVariants} `{CompressorProcessorClass}
    (calls : list RealtimeCall) (w : World) (p : addr) :
  Forall call_settings_ok calls ->
  (forall j slave, mSlaves (this w) !! j = Some slave -> mpOutputs slave <> Some p) ->
  forall w', do_calls calls w = Returns w' -> outputs w' !!! p = outputs w !!! p.
Proof.
  revert w. induction calls as [|c calls IH]; intros w Hok Hfree w'.
  - simpl. intros [= <-]. reflexivity.
  - apply Forall_cons in Hok as [Hc Hok].
    destruct (do_call_frame c w Hc) as (w1 & Hcall & Hframe & _).
    simpl. rewrite Hcall. simpl. intros Hrun.
    rewrite (IH w1 Hok) with (w' := w'); [apply (do_call_unreferenced c w w1 p Hfree Hcall)| |exact Hrun].
    destruct Hframe as (_ & _ & _ & _ & _ & _ & Hptr).
    intros j slave1 Hslave1 Hp. specialize (Hptr j). rewrite Hslave1 in Hptr.
    destruct (mSlaves (this w) !! j) as [slave|] eqn:Hslave; [|discriminate Hptr].
    simpl in Hptr. injection Hptr as Hptr.
    apply (Hfree j slave Hslave). congruence.
Qed.

(** X17. Telemetry is append-only. Over any sequence of realtime calls each
    telemetry object keeps the packets it held, in their order, and gains at
    most one packet per [RealtimeProcess] call of the sequence; an object no
    context points to gains none. *)
Theorem telemetry_append_only `{SettingsVariants} `{CompressorProcessorClass}
    (w : World) (calls : list RealtimeCall) :
  Forall call_settings_ok calls ->
  exists w',
    do_calls calls w = Returns w'
    /\ (forall p, exists appended,
          outputs w' !!! p = outputs w !!! p ++ appended
          /\ (length appended <= process_calls calls)%nat)
    /\ (forall p,
          (forall j slave, mSlaves (this w) !! j = Some slave -> mpOutputs slave <> Some p) ->
          outputs w' !!! p = outputs w !!! p).
Proof.
  intros Hok.
  destruct (do_calls_frame calls w Hok) as (w' & Hrun & _ & _ & Happ).
  exists w'. split; [exact Hrun|]. split; [exact Happ|].
  intros p Hfree. exact (do_calls_unreferenced calls w p Hok Hfree w' Hrun).
Qed.

(** ** The lifecycle *)

Lemma ProcessInitialize_Returns `{SettingsVariants} `{CompressorProcessorClass}
    (w : World) (settings : EffectSettings) (d : DynamicRangeProcessorSettings)
    (sampleRate : Q) (chanMap : list N) :
  GetDynamicRangeProcessorSettings settings = Returns d ->
  exists w',
    ProcessInitialize settings sampleRate chanMap w = Returns (true, w')
    /\ GetSampleRate w' = Some sampleRate
    /\ mCompressor (this w')
       = Init sampleRate GetAudioInCount (GetBlockSize (this w))
           (ApplySettingsIfNeeded d (mCompressor (this w)))
    /\ mpOutputs (this w') = None
    /\ mSlaves (this w') = mSlaves (this w)
    /\ outputs w' = outputs w
    /\ published w' = published w.
Proof.
  intros Hd. unfold ProcessInitialize, InstanceInit. rewrite Hd. simpl.
  eexists. split; [reflexivity|]. repeat split.
Qed.

(** X5. [GetSampleRate] reads the rate of the session in progress. After
    [ProcessInitialize] it is the rate given, it stays so over offline
    blocks, and [ProcessFinalize] clears it. After [RealtimeInitialize] it is
    the rate given and stays so while contexts are added (at whatever rate
    of their own), blocks are processed or bypassed and processing resumes,
    until [RealtimeFinalize] clears it. *)
Theorem GetSampleRate_lifecycle `{SettingsVariants} `{CompressorProcessorClass} `{VectorGrowth}
    (w : World) (settings : EffectSettings) (d : DynamicRangeProcessorSettings)
    (sampleRate : Q) (chanMap : list N)
    (adds : list AddProcessorArgs) (calls : list RealtimeCall) :
  GetDynamicRangeProcessorSettings settings = Returns d ->
  Forall (fun a => GetDynamicRangeProcessorSettings (add_settings a) <> ContractViolation) adds ->
  Forall call_settings_ok calls ->
  (exists w',
      ProcessInitialize settings sampleRate chanMap w = Returns (true, w')
      /\ GetSampleRate w' = Some sampleRate
      /\ (forall inBlock outBlock blockLen r,
            ProcessBlock settings inBlock outBlock blockLen w' = Returns r ->
            GetSampleRate r.2 = Some sampleRate)
      /\ GetSampleRate (ProcessFinalize w').2 = None)
  /\ (exists w1 w2,
        add_processors adds (RealtimeInitialize settings sampleRate w).2 = Returns w1
        /\ do_calls calls w1 = Returns w2
        /\ GetSampleRate w1 = Some sampleRate
        /\ GetSampleRate w2 = Some sampleRate
        /\ GetSampleRate (RealtimeResume w2).2 = Some sampleRate
        /\ GetSampleRate (RealtimeFinalize settings w2).2 = None).
Proof.
  intros Hd Hadds Hcalls. split.
  - destruct (ProcessInitialize_Returns w settings d sampleRate chanMap Hd)
      as (w' & Hinit & Hrate & _).
    exists w'. split; [exact Hinit|]. split; [exact Hrate|]. split; [|reflexivity].
    intros inBlock outBlock blockLen r. unfold ProcessBlock.
    rewrite (InstanceProcess_Returns settings d) by exact Hd.
    simpl. intros [= <-]. exact Hrate.
  - destruct (add_processors_effect adds (RealtimeInitialize settings sampleRate w).2 Hadds)
      as (w1 & Hw1 & _ & _ & _ & _ & _ & Hrate1 & _).
    destruct (do_calls_frame calls w1 Hcalls) as (w2 & Hw2 & Hframe & _).
    destruct Hframe as (_ & Hrate2 & _).
    exists w1, w2. split; [exact Hw1|]. split; [exact Hw2|].
    split; [exact Hrate1|].
    assert (Hrate : GetSampleRate w2 = Some sampleRate).
    { unfold GetSampleRate in *. rewrite Hrate2. exact Hrate1. }
    split; [exact Hrate|]. split; [exact Hrate | reflexivity].
Qed.

(** X6. [RealtimeFinalize] leaves no context behind, however many there
    were, and keeps the packets already written and the offline core. Calls
    of the audio callback that arrive afterwards find no group in range:
    every [RealtimeProcess] returns 0 and any sequence of calls leaves the
    world as it is. *)
Theorem RealtimeFinalize_drops_contexts `{SettingsVariants} `{CompressorProcessorClass}
    (w : World) (settings : EffectSettings) (calls : list RealtimeCall) :
  mSlaves (this (RealtimeFinalize settings w).2) = []
  /\ outputs (RealtimeFinalize settings w).2 = outputs w
  /\ mCompressor (this (RealtimeFinalize settings w).2) = mCompressor (this w)
  /\ (forall group, counter_of group (RealtimeFinalize settings w).2 = None)
  /\ (forall group settings' inbuf outbuf numSamples,
        RealtimeProcess group settings' inbuf outbuf numSamples (RealtimeFinalize settings w).2
        = Returns (0%N, outbuf, (RealtimeFinalize settings w).2))
  /\ do_calls calls (RealtimeFinalize settings w).2 = Returns (RealtimeFinalize settings w).2.
Proof.
  split; [reflexivity|]. split; [reflexivity|]. split; [reflexivity|].
  split; [intros group; reflexivity|]. split.
  - intros. apply RealtimeProcess_no_context. simpl. lia.
  - apply do_calls_no_context. reflexivity.
Qed.

(** X7. What a realtime session publishes. [RealtimeInitialize] announces
    the sample rate, [RealtimeResume] that playback resumed and
    [RealtimeFinalize] that no rate is known; adding contexts, processing and
    bypassing blocks publish nothing. A session with one resume appends
    exactly these three notifications, in this order. *)
Theorem session_notifications `{SettingsVariants} `{CompressorProcessorClass} `{VectorGrowth}
    (w0 : World) (initSettings finalSettings : EffectSettings) (sampleRate : Q)
    (adds : list AddProcessorArgs) (calls1 calls2 : list RealtimeCall) :
  Forall (fun a => GetDynamicRangeProcessorSettings (add_settings a) <> ContractViolation) adds ->
  Forall call_settings_ok calls1 ->
  Forall call_settings_ok calls2 ->
  exists w1 w2 w3,
    add_processors adds (RealtimeInitialize initSettings sampleRate w0).2 = Returns w1
    /\ do_calls calls1 w1 = Returns w2
    /\ do_calls calls2 (RealtimeResume w2).2 = Returns w3
    /\ published w1 = published w0 ++ [InitializeProcessingSettings (Some sampleRate)]
    /\ published w2 = published w1
    /\ published (RealtimeFinalize finalSettings w3).2
       = published w0 ++ [InitializeProcessingSettings (Some sampleRate);
                          RealtimeResumed;
                          InitializeProcessingSettings None].
Proof.
  intros Hadds Hcalls1 Hcalls2.
  destruct (add_processors_effect adds (RealtimeInitialize initSettings sampleRate w0).2 Hadds)
    as (w1 & Hw1 & _ & _ & _ & _ & _ & _ & _ & Hpub1).
  destruct (do_calls_frame calls1 w1 Hcalls1) as (w2 & Hw2 & Hframe2 & _).
  destruct (do_calls_frame calls2 (RealtimeResume w2).2 Hcalls2) as (w3 & Hw3 & Hframe3 & _).
  destruct Hframe2 as (_ & _ & _ & _ & Hpub2 & _).
  destruct Hframe3 as (_ & _ & _ & _ & Hpub3 & _).
  exists w1, w2, w3. split; [exact Hw1|]. split; [exact Hw2|]. split; [exact Hw3|].
  split; [exact Hpub1|]. split; [exact Hpub2|].
  simpl. rewrite Hpub3. simpl. rewrite Hpub2, Hpub1. simpl.
  rewrite <- !app_assoc. reflexivity.
Qed.

(** * The properties on concrete runs *)

Section Runs.

#[local] Existing Instance doubling.
#[local] Existing Instance plainSettings.
#[local] Existing Instance unityProcessor.
#[local] Existing Instance chordLog.

Lemma RealtimeProcess_out_of_range_witness :
  exists w',
    RealtimeProcess 0 foreignSnapshot [[1; 2]] [[0; 0]] 2 fresh_world
    = Returns (0%N, [[0; 0]], w')
    /\ w' = fresh_world.
Proof.
  destruct (RealtimeProcess_out_of_range fresh_world 0 foreignSnapshot [[1; 2]] [[0; 0]] 2)
    as (w' & Hret & Hsame & _).
  - vm_compute. discriminate.
  - exists w'. split; [exact Hret | exact Hsame].
Defined.

Lemma process_returns_block_length_witness :
  (exists outBlock' w',
      ProcessBlock limiterSnapshot [[1; -1]] [[0; 0]] 2
        (realtime_world [unity_context 0 (Some 7%nat)])
      = Returns (2%N, outBlock', w'))
  /\ (exists outbuf' w',
        RealtimeProcess 0 limiterSnapshot [[1; -1]] [[0; 0]] 3
          (realtime_world [unity_context 0 (Some 7%nat)])
        = Returns (3%N, outbuf', w')).
Proof.
  destruct process_returns_block_length as (Hoffline & _ & Hrealtime). split.
  - apply (Hoffline (realtime_world [unity_context 0 (Some 7%nat)])
             limiterSnapshot limiter1 [[1; -1]] [[0; 0]] 2%N). reflexivity.
  - apply (Hrealtime (realtime_world [unity_context 0 (Some 7%nat)]) 0%N
             (unity_context 0 (Some 7%nat)) limiterSnapshot limiter1 [[1; -1]] [[0; 0]] 3%N);
      reflexivity.
Defined.

Lemma RealtimeProcess_targetCompressionDb_witness :
  exists outbuf' w' slave' newPacket,
    RealtimeProcess 0 compressorSnapshot [[1; -1]] [[0; 0]] 2
      (realtime_world [unity_context 512 (Some 7%nat)])
    = Returns (2%N, outbuf', w')
    /\ mSlaves (this w') !! N.to_nat 0 = Some slave'
    /\ mCompressor slave'
       = core_after limiter1 (unity_context 512 (Some 7%nat)) [[1; -1]] [[0; 0]] 2
    /\ outputs w' !!! 7%nat
       = outputs (realtime_world [unity_context 512 (Some 7%nat)]) !!! 7%nat ++ [newPacket]
    /\ targetCompressionDb newPacket
       = EvaluateTransferFunction (mCompressor slave')
           (maxInputSampleDb (GetLastFrameStats (mCompressor slave')))
         - maxInputSampleDb (GetLastFrameStats (mCompressor slave'))
         - (outCompressionThreshDb (GetSettings (mCompressor slave'))
            - inCompressionThreshDb (GetSettings (mCompressor slave'))).
Proof.
  apply (RealtimeProcess_targetCompressionDb
           (realtime_world [unity_context 512 (Some 7%nat)])
           0 compressorSnapshot limiter1 [[1; -1]] [[0; 0]] 2
           (unity_context 512 (Some 7%nat)) 7%nat); reflexivity.
Defined.

Lemma RealtimeProcess_packets_witness :
  exists outbuf' w' newPacket,
    RealtimeProcess 0 limiterSnapshot [[1; -1]] [[0; 0]] 2
      (realtime_world [unity_context 512 (Some 7%nat)])
    = Returns (2%N, outbuf', w')
    /\ outputs w' = <[7%nat := [newPacket]]> ∅
    /\ indexOfFirstSample newPacket = 512%Z
    /\ counter_of 0 w' = Some 514%Z.
Proof.
  destruct (@RealtimeProcess_packets plainSettings unityProcessor doubling) as (Hblock & _ & _).
  destruct (Hblock (realtime_world [unity_context 512 (Some 7%nat)]) 0%N
              (unity_context 512 (Some 7%nat)) limiterSnapshot limiter1
              [[1; -1]] [[0; 0]] 2%N eq_refl eq_refl)
    as (outbuf' & w' & newPacket & Hret & Houts & Hidx & Hctr).
  exists outbuf', w', newPacket.
  split; [exact Hret|]. split; [exact Houts|]. split; [exact Hidx|exact Hctr].
Defined.






Lemma GetMaxDbIncrease_silent_positions_witness :
  GetMaxDbIncrease [1; 0; 1 # 2] [1 # 2; 100; 1 # 4] 3
  = GetMaxDbIncrease [1; 1 # 10000000; 1 # 2] [1 # 2; -3; 1 # 4] 3.
Proof.
  apply (GetMaxDbIncrease_silent_positions
           [1; 0; 1 # 2] [1 # 2; 100; 1 # 4] [1; 1 # 10000000; 1 # 2] [1 # 2; -3; 1 # 4] 3);
    try (simpl; lia).
  intros i Hi. destruct i as [|[|[|i]]]; try lia.
  - right. split; reflexivity.
  - left. split; reflexivity.
  - right. split; reflexivity.
Defined.

(** ** Small runs *)

Example GetLatency_44100 :
  GetLatency fresh_world limiterSnapshot 44100 = Returns 44%Z.
Proof. reflexivity. Qed.

Example GetLatency_foreign_settings :
  GetLatency fresh_world foreignSnapshot 44100 = ContractViolation.
Proof. reflexivity. Qed.

(** In double precision these two quotients come out without rounding, so
    the two latencies above are equal in the arithmetic of the code as well. *)
Example quotients_in_binary64 :
  (1 * 1000 / 1000)%float = 1%float /\ (1.5 * 1000 / 1000)%float = 1.5%float.
Proof. split; reflexivity. Qed.

Example truncate_towards_zero : truncate (-(3 # 2)) = (-1)%Z /\ truncate (3 # 2) = 1%Z.
Proof. split; reflexivity. Qed.

Example GetMaxDbIncrease_silent_input :
  GetMaxDbIncrease [0; 1 # 10000000] [1; -5] 2 = NegInfinity.
Proof. reflexivity. Qed.

Example GetMaxDbIncrease_zero_output :
  GetMaxDbIncrease [1; 1 # 2] [0; 0] 2 = NegInfinity.
Proof. reflexivity. Qed.

Example wrap_int64_at_the_top : wrap_int64 (2 ^ 63 - 1 + 1) = (- 2 ^ 63)%Z.
Proof. reflexivity. Qed.

(** With the doubling policy the second [RealtimeAddProcessor] finds the
    vector full: the first context comes out of the move with its core, a
    counter of zero and no telemetry object. *)
Example second_add_moves_first_context :
  exists w1 w2 w3 outbuf,
    RealtimeAddProcessor limiterSnapshot (DynamicRangeOutputs 7%nat) 2 44100
      (RealtimeInitialize foreignSnapshot 44100 fresh_world).2 = Returns (true, w1)
    /\ RealtimeProcess 0 limiterSnapshot [[1; -1]] [[0; 0]] 512 w1 = Returns (512%N, outbuf, w2)
    /\ counter_of 0 w2 = Some 512%Z
    /\ RealtimeAddProcessor limiterSnapshot (DynamicRangeOutputs 7%nat) 2 44100 w2
       = Returns (true, w3)
    /\ counter_of 0 w3 = Some 0%Z
    /\ (mpOutputs <$> mSlaves (this w3)) = [None; Some 7%nat].
Proof.
  eexists _, _, _, _. repeat split; reflexivity.
Qed.

(** ** The further properties on concrete runs *)

Lemma GetMaxDbIncrease_greatest_ratio_witness :
  GetMaxDbIncrease [1; 1 # 2; 0] [1 # 2; 1; 7] 3 = NegInfinity
  \/ exists i, (i < 3)%nat /\ silenceFloor <= Qabs (nth i [1; 1 # 2; 0] 0)
       /\ (forall j, (j < 3)%nat -> silenceFloor <= Qabs (nth j [1; 1 # 2; 0] 0) ->
             Qabs (nth j [1 # 2; 1; 7] 0) / Qabs (nth j [1; 1 # 2; 0] 0)
             <= Qabs (nth i [1 # 2; 1; 7] 0) / Qabs (nth i [1; 1 # 2; 0] 0))
       /\ GetMaxDbIncrease [1; 1 # 2; 0] [1 # 2; 1; 7] 3
          = Finite (log2ToDb * FastLog2 (Qabs (nth i [1 # 2; 1; 7] 0)
                                          / Qabs (nth i [1; 1 # 2; 0] 0))).
Proof.
  apply (GetMaxDbIncrease_greatest_ratio [1; 1 # 2; 0] [1 # 2; 1; 7] 3); simpl; lia.
Defined.


Lemma GetMaxDbIncrease_magnitudes_only_witness :
  GetMaxDbIncrease [-1; 1 # 2] [1 # 2; -(1 # 4)] 2
  = GetMaxDbIncrease [1; 1 # 2] [1 # 2; 1 # 4] 2.
Proof.
  apply (GetMaxDbIncrease_magnitudes_only [1; 1 # 2] [1 # 2; 1 # 4]
           [-1; 1 # 2] [1 # 2; -(1 # 4)] 2); try (simpl; lia).
  intros i Hi. destruct i as [|[|i]]; try lia.
  - split; [right | left]; reflexivity.
  - split; [left | right]; reflexivity.
Defined.


Lemma GetSampleRate_lifecycle_witness :
  exists w1 w2,
    add_processors [one_add] (RealtimeInitialize limiterSnapshot 48000 fresh_world).2 = Returns w1
    /\ do_calls playback w1 = Returns w2
    /\ GetSampleRate w2 = Some 48000
    /\ GetSampleRate (RealtimeFinalize limiterSnapshot w2).2 = None.
Proof.
  destruct (GetSampleRate_lifecycle fresh_world limiterSnapshot limiter1 48000 [0%N; 1%N]
              [one_add] playback eq_refl)
    as (_ & w1 & w2 & Hw1 & Hw2 & _ & Hrate & _ & Hfinal).
  - repeat constructor. discriminate.
  - repeat constructor; discriminate.
  - exists w1, w2. split; [exact Hw1|]. split; [exact Hw2|]. split; [exact Hrate | exact Hfinal].
Defined.

Lemma session_notifications_witness :
  exists w1 w2 w3,
    add_processors [one_add] (RealtimeInitialize limiterSnapshot 44100 fresh_world).2 = Returns w1
    /\ do_calls playback w1 = Returns w2
    /\ do_calls playback (RealtimeResume w2).2 = Returns w3
    /\ published (RealtimeFinalize limiterSnapshot w3).2
       = [InitializeProcessingSettings (Some 44100); RealtimeResumed;
          InitializeProcessingSettings None].
Proof.
  destruct (session_notifications fresh_world limiterSnapshot limiterSnapshot 44100
              [one_add] playback playback)
    as (w1 & w2 & w3 & Hw1 & Hw2 & Hw3 & _ & _ & Hpub).
  - repeat constructor. discriminate.
  - repeat constructor; discriminate.
  - repeat constructor; discriminate.
  - exists w1, w2, w3. split; [exact Hw1|]. split; [exact Hw2|]. split; [exact Hw3 | exact Hpub].
Defined.

Lemma RealtimeAddProcessor_appends_witness :
  exists w',
    RealtimeAddProcessor limiterSnapshot (DynamicRangeOutputs 9%nat) 2 44100 two_contexts
    = Returns (true, w')
    /\ length (mSlaves (this w')) = 3%nat
    /\ mpOutputs <$> (mSlaves (this w') !! 2%nat) = Some (Some 9%nat).
Proof.
  destruct (RealtimeAddProcessor_appends two_contexts limiterSnapshot limiter1
              (DynamicRangeOutputs 9%nat) 2 44100 eq_refl)
    as (w' & Hadd & Hlen & Hnew & _).
  exists w'. split; [exact Hadd|]. split; [exact Hlen|].
  change (length (mSlaves (this two_contexts))) with 2%nat in Hnew.
  rewrite Hnew. reflexivity.
Defined.

Lemma RealtimeAddProcessor_existing_contexts_witness :
  exists w' slave',
    RealtimeAddProcessor limiterSnapshot (DynamicRangeOutputs 9%nat) 2 44100 two_contexts
    = Returns (true, w')
    /\ mSlaves (this w') !! 0%nat = Some slave'
    /\ mSampleCounter slave' = 0%Z
    /\ mpOutputs slave' = None.
Proof.
  destruct (RealtimeAddProcessor_existing_contexts two_contexts limiterSnapshot limiter1
              (DynamicRangeOutputs 9%nat) 2 44100 eq_refl)
    as (w' & Hadd & _ & Hfull).
  destruct (Hfull ltac:(simpl; lia) 0%nat (unity_context 512 (Some 7%nat)) eq_refl)
    as (slave' & Hslave' & _ & Hctr & Hptr).
  exists w', slave'. split; [exact Hadd|]. split; [exact Hslave'|].
  split; [exact Hctr | exact Hptr].
Defined.

Lemma contexts_after_RealtimeInitialize_witness :
  exists w1,
    add_processors [one_add; one_add]
      (RealtimeInitialize limiterSnapshot 44100 two_contexts).2 = Returns w1
    /\ length (mSlaves (this w1)) = 2%nat
    /\ GetBlockSize (this w1) = 512%N.
Proof.
  destruct (contexts_after_RealtimeInitialize two_contexts limiterSnapshot 44100
              [one_add; one_add])
    as (w1 & Hw1 & Hlen & Hbs & _).
  - repeat constructor; discriminate.
  - exists w1. split; [exact Hw1|]. split; [exact Hlen | exact Hbs].
Defined.

Lemma context_without_telemetry_witness :
  exists w1 outbuf' w2,
    RealtimeAddProcessor limiterSnapshot (ForeignOutputs 9%nat) 2 44100 two_contexts
    = Returns (true, w1)
    /\ RealtimeProcess 2 limiterSnapshot [[1; -1]] [[0; 0]] 2 w1 = Returns (2%N, outbuf', w2)
    /\ outputs w2 = outputs two_contexts.
Proof.
  destruct (context_without_telemetry two_contexts limiterSnapshot limiter1
              (ForeignOutputs 9%nat) 2 44100 limiterSnapshot limiter1 [[1; -1]] [[0; 0]] 2
              eq_refl eq_refl eq_refl)
    as (w1 & outbuf' & w2 & Hadd & Hrun & Hout & _).
  exists w1, outbuf', w2. split; [exact Hadd|]. split; [exact Hrun | exact Hout].
Defined.

Lemma RealtimeProcess_isolation_witness :
  exists outbuf' w',
    RealtimeProcess 0 limiterSnapshot [[1; -1]] [[0; 0]] 2 two_contexts
    = Returns (2%N, outbuf', w')
    /\ mSlaves (this w') !! 1%nat = Some (unity_context 0 None)
    /\ outputs w' !!! 3%nat = [].
Proof.
  destruct (RealtimeProcess_isolation two_contexts 0 limiterSnapshot limiter1
              [[1; -1]] [[0; 0]] 2 (unity_context 512 (Some 7%nat)) eq_refl eq_refl)
    as (outbuf' & w' & slave' & Hrun & _ & _ & _ & _ & Hothers & Houts).
  exists outbuf', w'. split; [exact Hrun|]. split.
  - rewrite (Hothers 1%nat) by (simpl; lia). reflexivity.
  - etransitivity; [apply (Houts 3%nat); discriminate | reflexivity].
Defined.

Lemma packet_index_counts_samples_witness :
  exists w1 outbuf' w2 newPacket,
    do_calls playback two_contexts = Returns w1
    /\ RealtimeProcess 0 limiterSnapshot [[1; -1]] [[0; 0]] 2 w1 = Returns (2%N, outbuf', w2)
    /\ outputs w2 !!! 7%nat = outputs w1 !!! 7%nat ++ [newPacket]
    /\ indexOfFirstSample newPacket = 1280%Z.
Proof.
  apply (packet_index_counts_samples two_contexts 0 (unity_context 512 (Some 7%nat)) 7%nat
           playback limiterSnapshot limiter1 [[1; -1]] [[0; 0]] 2);
    try reflexivity.
  - repeat constructor; discriminate.
  - discriminate.
Defined.

Lemma RealtimeResume_then_process_witness :
  exists outbuf' w2 newPacket,
    RealtimeProcess 0 limiterSnapshot [[1; -1]] [[0; 0]] 2 (RealtimeResume two_contexts).2
    = Returns (2%N, outbuf', w2)
    /\ outputs w2 !!! 7%nat = [newPacket]
    /\ indexOfFirstSample newPacket = 512%Z.
Proof.
  destruct (RealtimeResume_then_process two_contexts 0 (unity_context 512 (Some 7%nat)) 7%nat
              limiterSnapshot limiter1 [[1; -1]] [[0; 0]] 2 eq_refl eq_refl eq_refl)
    as (outbuf' & w2 & slave2 & newPacket & Hrun & _ & _ & Hout & Hidx & _).
  exists outbuf', w2, newPacket. split; [exact Hrun|]. split; [exact Hout | exact Hidx].
Defined.

Lemma offline_and_realtime_paths_witness :
  exists w1 outBlock' wa wb,
    do_calls playback two_contexts = Returns w1
    /\ ProcessBlock limiterSnapshot [[1; -1]] [[0; 0]] 2 two_contexts
       = Returns (2%N, outBlock', wa)
    /\ ProcessBlock limiterSnapshot [[1; -1]] [[0; 0]] 2 w1 = Returns (2%N, outBlock', wb)
    /\ mCompressor (this wa) = mCompressor (this wb).
Proof.
  destruct (offline_and_realtime_paths two_contexts playback limiterSnapshot limiter1
              [[1; -1]] [[0; 0]] 2)
    as (w1 & outBlock' & wa & wb & Hrun & Ha & Hb & Hcore & _).
  - repeat constructor; discriminate.
  - reflexivity.
  - exists w1, outBlock', wa, wb. split; [exact Hrun|]. split; [exact Ha|].
    split; [exact Hb | exact Hcore].
Defined.

Lemma telemetry_append_only_witness :
  exists w' appended,
    do_calls playback two_contexts = Returns w'
    /\ outputs w' !!! 7%nat = outputs two_contexts !!! 7%nat ++ appended
    /\ (length appended <= 2)%nat
    /\ outputs w' !!! 3%nat = outputs two_contexts !!! 3%nat.
Proof.
  destruct (telemetry_append_only two_contexts playback)
    as (w' & Hrun & Happ & Hfree).
  - repeat constructor; discriminate.
  - destruct (Happ 7%nat) as (appended & Heq & Hlen).
    exists w', appended. split; [exact Hrun|]. split; [exact Heq|]. split; [exact Hlen|].
    apply Hfree. intros j slave Hslave.
    destruct j as [|[|j]]; simpl in Hslave; [| |discriminate Hslave];
      injection Hslave as <-; discriminate.
Defined.

End Runs.
